(** * astrbot_plugin_matchreminder: contest data pipeline and daily reminder

    A shallow embedding of the plugin's three Python modules:
    - [Config]     : config.py       (ConfigManager)
    - [DataSource] : data_source.py  (ContestDataManager: cache, fetchers, today query)
    - [Main]       : main.py         (reminder_loop's target-time computation)

    Python objects that are mutated in place ([self.cf], [self.config], the
    cache file) are threaded explicitly through the functions; exceptions are
    values of [py_exn]; network replies, the wall clock and the file system are
    inputs of the functions that consult them. *)

From Stdlib Require Import ZArith QArith Qpower Qround Qabs Lia Lqa.
From stdpp Require Import gmap strings list pretty.

Set Warnings "-register-all".
Local Open Scope string_scope.
Local Open Scope Z_scope.

(** ** Python exceptions met in the three modules *)

Inductive py_exn : Type :=
| OSError
| JSONDecodeError
| KeyError
| TypeError
| AttributeError
| ValueError
| IndexError
| TimeoutException
| HTTPStatusError
| OverflowError
| OtherException.

(** A computation that either raises or returns. *)
Inductive result (A : Type) : Type :=
| Raise (e : py_exn)
| Return (a : A).
Arguments Raise {A} e.
Arguments Return {A} a.

#[global] Instance result_ret : MRet result := fun A a => Return a.

#[global] Instance result_bind : MBind result := fun A B k r =>
  match r with
  | Raise e => Raise e
  | Return a => k a
  end.

(** [d[k]] on a dict: [KeyError] when the key is missing. *)
Definition subscript {V} (d : gmap string V) (k : string) : result V :=
  match d !! k with
  | Some v => Return v
  | None => Raise KeyError
  end.

(** Truth value of a Python list: [if l] holds when [l] is not empty. *)
Definition truthy {A} (l : list A) : bool :=
  match l with
  | [] => false
  | _ :: _ => true
  end.


(** [seq[i]] on a list: [IndexError] out of range. *)
Definition index {A} (l : list A) (i : nat) : result A :=
  match l !! i with
  | Some x => Return x
  | None => Raise IndexError
  end.

(** [range(0, stop, step)] for a positive [step]. *)
Definition py_range (stop step : nat) : list nat :=
  (fun k => k * step)%nat <$> seq 0 ((stop + step - 1) / step)%nat.

(** The newline of Python's ["\n"]. *)
Definition nl : string := String (Ascii.ascii_of_nat 10) EmptyString.

(** Library functions of the Python run time that the plugin calls and whose
    result depends on the locale, the time zone or Unicode tables. They are
    taken as an interface; every definition below that calls one of them is
    parameterised by it. Dates are day ordinals ([date.toordinal()]). *)
Class PyLib : Type := {
  (** [time.strftime("%Y-%m-%d %H:%M", time.localtime(seconds))] for an
      integer number of seconds; [None] stands for the [OverflowError] or
      [OSError] of a time stamp that [time.localtime] does not accept *)
  strftime_local : Z -> option string;
  (** [time.strftime("%Y-%m-%d %H:%M", time.localtime(ms / 1000))] for an
      integer number of milliseconds, the division being Python's true
      division; [None] stands for the exception of a value that the
      division or [time.localtime] does not accept *)
  strftime_local_ms : Z -> option string;
  (** [datetime.strptime(s, "%Y-%m-%d %H:%M").date()]; [None] stands for the
      [ValueError] of a string that does not match the format *)
  strptime_date : string -> option Z;
  (** the AtCoder time cell: [s.replace('+0900', '').strip()], parsed with
      ["%Y-%m-%d %H:%M:%S"], minus one hour, printed and cut to the minute *)
  atc_contest_time : string -> option string;
  (** [str.strip] *)
  py_strip : string -> string;
  (** [int(s)] on a string; [None] stands for [ValueError] *)
  py_int : string -> option Z
}.

(** ** config.py *)

Module Config.

(** [class Config(BaseModel)] *)
Record Config : Type := {
  matchreminder_time : gmap string string;
  matchreminder_list : list string;
  enable_auto_reminder : bool
}.

(** Field defaults of the pydantic model. *)
Definition default_config : Config :=
  {| matchreminder_time := {[ "hour" := "8"; "minute" := "30" ]};
     matchreminder_list := [];
     enable_auto_reminder := false |}.

(** [ConfigManager]: the in-memory [self.config] and the content of
    [config.json] ([None] while the file holds nothing this model wrote). *)
Record ConfigManager : Type := {
  config : Config;
  config_file : option Config
}.

(** [save_config]: dumps [self.config] to the file; an [OSError] is caught
    and reported by the returned flag. [writable] says whether [open] and
    the write go through. *)
Definition save_config (writable : bool) (m : ConfigManager)
  : bool * ConfigManager :=
  if writable
  then (true, {| config := config m; config_file := Some (config m) |})
  else (false, m).

Definition set_enable (c : Config) (b : bool) : Config :=
  {| matchreminder_time := matchreminder_time c;
     matchreminder_list := matchreminder_list c;
     enable_auto_reminder := b |}.

(** [toggle_auto_reminder]: negate the flag, save (the outcome of the save
    is dropped), return the flag. *)
Definition toggle_auto_reminder (writable : bool) (m : ConfigManager)
  : bool * ConfigManager :=
  let m1 := {| config := set_enable (config m)
                           (negb (enable_auto_reminder (config m)));
               config_file := config_file m |} in
  let '(_, m2) := save_config writable m1 in
  (enable_auto_reminder (config m2), m2).

Definition enabled (m : ConfigManager) : bool :=
  enable_auto_reminder (config m).

Definition set_list (c : Config) (l : list string) : Config :=
  {| matchreminder_time := matchreminder_time c;
     matchreminder_list := l;
     enable_auto_reminder := enable_auto_reminder c |}.

Definition set_time (c : Config) (t : gmap string string) : Config :=
  {| matchreminder_time := t;
     matchreminder_list := matchreminder_list c;
     enable_auto_reminder := enable_auto_reminder c |}.

Definition with_config (m : ConfigManager) (c : Config) : ConfigManager :=
  {| config := c; config_file := config_file m |}.

(** [l.remove(x)]: drops the first occurrence of [x]. The callers test
    [x in l] first, so the [ValueError] of an absent [x] does not arise. *)
Fixpoint list_remove (x : string) (l : list string) : list string :=
  match l with
  | [] => []
  | y :: rest => if bool_decide (y = x) then rest else y :: list_remove x rest
  end.

(** [add_group]: append the group unless it is listed, then save; the flag
    returned is the one of the save. *)
Definition add_group (writable : bool) (group_id : string) (m : ConfigManager)
  : bool * ConfigManager :=
  if negb (bool_decide (group_id ∈ matchreminder_list (config m)))
  then save_config writable
         (with_config m (set_list (config m)
                           (matchreminder_list (config m) ++ [group_id])))
  else (false, m).

(** [remove_group]: remove the group if it is listed, then save. *)
Definition remove_group (writable : bool) (group_id : string) (m : ConfigManager)
  : bool * ConfigManager :=
  if bool_decide (group_id ∈ matchreminder_list (config m))
  then save_config writable
         (with_config m (set_list (config m)
                           (list_remove group_id (matchreminder_list (config m)))))
  else (false, m).

(** The validation of [set_reminder_time]. *)
Definition time_in_range (hour_int minute_int : Z) : bool :=
  (0 <=? hour_int) && (hour_int <=? 23)
  && (0 <=? minute_int) && (minute_int <=? 59).

Section WithPyLib.
Context `{PyLib}.

(** [set_reminder_time]: both strings must read as integers (a [ValueError]
    of [int] gives [False]) in range; the strings themselves are stored. *)
Definition set_reminder_time (writable : bool) (hour minute : string)
    (m : ConfigManager) : bool * ConfigManager :=
  match py_int hour with
  | None => (false, m)
  | Some hour_int =>
      match py_int minute with
      | None => (false, m)
      | Some minute_int =>
          if negb (time_in_range hour_int minute_int) then (false, m)
          else save_config writable
                 (with_config m
                    (set_time (config m)
                       {[ "hour" := hour; "minute" := minute ]}))
      end
  end.

End WithPyLib.

(** A manager for the examples: two groups listed, the reminder off. *)
Definition sample_manager : ConfigManager :=
  {| config := {| matchreminder_time := {[ "hour" := "8"; "minute" := "30" ]};
                  matchreminder_list := ["g1"; "g2"];
                  enable_auto_reminder := false |};
     config_file := None |}.

End Config.

(** ** data_source.py *)

Module DataSource.

(** *** Python floats *)

(** A [float]: a finite value, an infinity or a NaN. Finite values are kept
    as rationals; every operation that produces one rounds it to binary64. *)
Inductive pyfloat : Type :=
| Finite (q : Q)
| PosInf
| NegInf
| NaN.

Definition pow2 (e : Z) : Q := (2 ^ e)%Q.

(** The integer [l] with [2^l <= q < 2^(l+1)], for a positive [q]. *)
Definition log2_floor (q : Q) : Z :=
  let l := Z.log2 (Qnum q) - Z.log2 (Zpos (Qden q)) in
  if Qle_bool (pow2 l) q then l else l - 1.

(** The nearest integer, the even one of two that are equally near. *)
Definition round_half_even (x : Q) : Z :=
  let f := Qfloor x in
  match (x - inject_Z f ?= 1 # 2)%Q with
  | Lt => f
  | Gt => f + 1
  | Eq => if Z.even f then f else f + 1
  end.

(** The exponent of the last place of a binary64 number of the size of [q]:
    53 significant bits, and no place below [2^-1074]. *)
Definition ulp_exponent (q : Q) : Z :=
  Z.max (log2_floor (Qabs q) - 52) (-1074).

(** Rounding to binary64, to nearest and ties to even; a result of
    magnitude [2^1024] and more is an infinity. *)
Definition round64 (q : Q) : pyfloat :=
  if Qeq_bool q 0 then Finite 0
  else
    let e := ulp_exponent q in
    let v := (inject_Z (round_half_even (q / pow2 e)) * pow2 e)%Q in
    if Qle_bool (pow2 1024) v then PosInf
    else if Qle_bool v (- pow2 1024) then NegInf
    else Finite v.

(** [float(n)] for an integer, as the arithmetic operators convert it: an
    integer that rounds out of range raises [OverflowError]. *)
Definition float_of_int (n : Z) : result Q :=
  match round64 (inject_Z n) with
  | Finite v => Return v
  | _ => Raise OverflowError
  end.

(** [x - y] for a finite [x]. *)
Definition float_minus (x : Q) (y : pyfloat) : pyfloat :=
  match y with
  | Finite v => round64 (x - v)
  | PosInf => NegInf
  | NegInf => PosInf
  | NaN => NaN
  end.

Definition Qltb (x y : Q) : bool := negb (Qle_bool y x).

(** [a < n] for a float and an integer: the comparison is exact. *)
Definition float_lt_int (a : pyfloat) (n : Z) : bool :=
  match a with
  | Finite v => Qltb v (inject_Z n)
  | NegInf => true
  | PosInf => false
  | NaN => false
  end.

(** A float is at least, or at most, a rational: the infinities are beyond
    every rational, a NaN is comparable to none. *)
Definition float_ge (f : pyfloat) (c : Q) : Prop :=
  match f with
  | Finite v => (c <= v)%Q
  | PosInf => True
  | _ => False
  end.

Definition float_le (f : pyfloat) (c : Q) : Prop :=
  match f with
  | Finite v => (v <= c)%Q
  | NegInf => True
  | _ => False
  end.

(** A multiple of [2^-40], as every binary64 number of magnitude 4096 and
    more is: the clock readings of [time.time()] from 01:08:16 on the first
    day of 1970. *)
Definition clock_grid (x : Q) : Prop :=
  exists n : Z, (x == inject_Z n * pow2 (-40))%Q.

(** *** Values read by [json.load] *)

Inductive json : Type :=
| JNull
| JBool (b : bool)
| JInt (n : Z)
| JFloat (f : pyfloat)
| JStr (s : string)
| JArr (l : list json)
| JObj (m : gmap string json).

(** [ContestInfo = Tuple[str, str, str]]: name, time, link. *)
Record ContestInfo : Type := {
  contest_name : string;
  contest_time : string;
  contest_url : string
}.

(** [ContestDataManager]: the three per-source lists [self.cf], [self.nc],
    [self.atc]. *)
Record ContestDataManager : Type := {
  cf : list ContestInfo;
  nc : list ContestInfo;
  atc : list ContestInfo
}.

(** [__init__] before the cache is consulted. *)
Definition empty_manager : ContestDataManager :=
  {| cf := []; nc := []; atc := [] |}.

(** *** The cache file *)

(** What [_load_cache] can find on disk. *)
Inductive cache_file : Type :=
| Missing                (* [self.cache_file.exists()] is false *)
| Unreadable             (* [open] raises [OSError] *)
| Malformed              (* [json.load] raises [JSONDecodeError] *)
| Content (v : json).    (* [json.load] returns [v] *)

(** The assignments [_load_cache] makes to the three lists: none, or the
    three values found in the file, taken as they are. *)
Inductive load_effect : Type :=
| Keeps
| Adopts (cf_value nc_value atc_value : json).

(** [d.get(k, dflt)]: only a dict has the method. *)
Definition dict_get (d : json) (k : string) (dflt : json) : result json :=
  match d with
  | JObj m => Return (default dflt (m !! k))
  | _ => Raise AttributeError
  end.

(** [x - v] for a float [x]: an integer is converted first, a boolean is
    the integer 0 or 1, a float is subtracted as it is, anything else is a
    [TypeError]. *)
Definition float_sub (x : Q) (v : json) : result pyfloat :=
  match v with
  | JInt n => y ← float_of_int n; Return (round64 (x - y))
  | JFloat f => Return (float_minus x f)
  | JBool b => Return (round64 (x - (if b then 1 else 0)))
  | _ => Raise TypeError
  end.

(** Body of the [try] block of [_load_cache]. *)
Definition load_cache_body (current_time : Q) (f : cache_file)
  : result load_effect :=
  match f with
  | Missing => Return Keeps
  | Unreadable => Raise OSError
  | Malformed => Raise JSONDecodeError
  | Content cache_data =>
      cache_time ← dict_get cache_data "timestamp" (JInt 0);
      age ← float_sub current_time cache_time;
      if float_lt_int age 3600 then
        cf_value ← dict_get cache_data "cf" (JArr []);
        nc_value ← dict_get cache_data "nc" (JArr []);
        atc_value ← dict_get cache_data "atc" (JArr []);
        Return (Adopts cf_value nc_value atc_value)
      else Return Keeps
  end.

(** [except (json.JSONDecodeError, KeyError, TypeError)] *)
Definition load_cache_catches (e : py_exn) : bool :=
  match e with
  | JSONDecodeError | KeyError | TypeError => true
  | _ => false
  end.

(** [_load_cache]: a caught exception is logged and the lists stay as they
    are; any other exception leaves the method. *)
Definition _load_cache (current_time : Q) (f : cache_file)
  : result load_effect :=
  match load_cache_body current_time f with
  | Raise e => if load_cache_catches e then Return Keeps else Raise e
  | Return eff => Return eff
  end.

(** A held list as [json.dump] writes it: a list of 3-element lists. *)
Definition json_of_contest (c : ContestInfo) : json :=
  JArr [JStr (contest_name c); JStr (contest_time c); JStr (contest_url c)].

Definition json_of_contests (l : list ContestInfo) : json :=
  JArr (json_of_contest <$> l).

(** [cache_data] of [_save_cache]. *)
Definition snapshot_fields (current_time : Q) (m : ContestDataManager)
  : gmap string json :=
  {[ "timestamp" := JFloat (Finite current_time);
     "cf" := json_of_contests (cf m);
     "nc" := json_of_contests (nc m);
     "atc" := json_of_contests (atc m) ]}.

Definition snapshot (current_time : Q) (m : ContestDataManager) : json :=
  JObj (snapshot_fields current_time m).

(** [_save_cache]: overwrite the file with the snapshot; an [OSError] is
    logged and swallowed. *)
Definition _save_cache (writable : bool) (current_time : Q)
    (m : ContestDataManager) (f : cache_file) : cache_file :=
  if writable then Content (snapshot current_time m) else f.

(** Reading a value back as a typed list, where it is one. *)
Definition contest_of_json (v : json) : option ContestInfo :=
  match v with
  | JArr [JStr n; JStr t; JStr u] =>
      Some {| contest_name := n; contest_time := t; contest_url := u |}
  | _ => None
  end.

Definition contests_of_json (v : json) : option (list ContestInfo) :=
  match v with
  | JArr l => mapM contest_of_json l
  | _ => None
  end.

(** The manager after [__init__], when the adopted values are lists of
    triples of strings (the declared type of the fields). *)
Definition manager_of_effect (eff : load_effect) : option ContestDataManager :=
  match eff with
  | Keeps => Some empty_manager
  | Adopts c n a =>
      c' ← contests_of_json c;
      n' ← contests_of_json n;
      a' ← contests_of_json a;
      Some {| cf := c'; nc := n'; atc := a' |}
  end.

(** *** The retry loop shared by the three fetchers *)

(** What a fetcher does to the outside world, in order. *)
Inductive event : Type :=
| Request (attempt : nat)     (* [client.get] of the given attempt *)
| Sleep (seconds : Z)         (* [asyncio.sleep] *)
| SaveCache.                  (* [self._save_cache()] *)

(** How one pass through the body of [for attempt in range(max_retries)]
    ends, with the source's list as the pass leaves it. *)
Inductive attempt_result : Type :=
| Returned (held : list ContestInfo)       (* [return True] *)
| Continued (held : list ContestInfo)      (* [continue] *)
| Fell_through (held : list ContestInfo).  (* leaves the [try] statement:
                                              an exception was caught, or
                                              no branch returned *)

(** The attempts whose request went out, and the waits, of a run. *)
Definition requests_of (evs : list event) : list nat :=
  omap (fun e => match e with Request k => Some k | _ => None end) evs.

Definition sleeps_of (evs : list event) : list Z :=
  omap (fun e => match e with Sleep s => Some s | _ => None end) evs.

Definition max_retries : nat := 3.

(** [if attempt < max_retries - 1: await asyncio.sleep(2 ** attempt)] *)
Definition backoff (attempt : nat) : list event :=
  if (attempt <? max_retries - 1)%nat then [Sleep (2 ^ Z.of_nat attempt)] else [].

(** The [for] loop from iteration [attempt] on, [remaining] iterations left;
    [return False] when they are used up. Each attempt issues its request
    after clearing the list. *)
Fixpoint retry_loop (body : nat -> list ContestInfo -> attempt_result)
    (remaining attempt : nat) (held : list ContestInfo)
  : bool * list ContestInfo * list event :=
  match remaining with
  | O => (false, held, [])
  | S remaining' =>
      match body attempt held with
      | Returned held' => (true, held', [Request attempt; SaveCache])
      | Continued held' =>
          let '(ok, held'', evs) := retry_loop body remaining' (S attempt) held' in
          (ok, held'', Request attempt :: evs)
      | Fell_through held' =>
          let '(ok, held'', evs) := retry_loop body remaining' (S attempt) held' in
          (ok, held'', Request attempt :: backoff attempt ++ evs)
      end
  end.

(** A fetcher: the cached answer when there is one and no refresh is forced,
    the retry loop otherwise. *)
Definition fetch (body : nat -> list ContestInfo -> attempt_result)
    (force_refresh : bool) (held : list ContestInfo)
  : bool * list ContestInfo * list event :=
  if negb force_refresh && truthy held then (true, held, [])
  else retry_loop body max_retries 0 held.

(** *** Codeforces *)

(** An element of [data['result']]; a field is [None] when the key is
    missing from the object. *)
Record cf_contest : Type := {
  phase : option string;
  name : option string;
  startTimeSeconds : option Z;
  id : option Z
}.

(** What one request to the contest-list API brings back. *)
Inductive cf_reply : Type :=
| CfError (e : py_exn)
    (* [client.get], [raise_for_status] or [response.json()] raises *)
| CfJson (status : option string) (result : option (list cf_contest)).

Section WithPyLib.
Context `{PyLib}.

Definition cf_record (contest_name contest_time : string) (contest_id : Z)
  : ContestInfo :=
  {| contest_name := contest_name;
     contest_time := contest_time;
     contest_url := "https://codeforces.com/contest/" ++ pretty contest_id |}.

(** [for contest in data['result']]: appends to [self.cf] until the first
    contest whose phase is not ["BEFORE"]; a missing key raises [KeyError],
    a start time that [time.localtime] refuses raises too, and either leaves
    what was appended so far. *)
Fixpoint cf_collect (result : list cf_contest) (held : list ContestInfo)
  : list ContestInfo * option py_exn :=
  match result with
  | [] => (held, None)
  | contest :: rest =>
      match phase contest with
      | None => (held, Some KeyError)
      | Some p =>
          if negb (String.eqb p "BEFORE") then (held, None)
          else
            match name contest with
            | None => (held, Some KeyError)
            | Some n =>
                match startTimeSeconds contest with
                | None => (held, Some KeyError)
                | Some t =>
                    match strftime_local t with
                    | None => (held, Some OverflowError)
                    | Some contest_time =>
                        match id contest with
                        | None => (held, Some KeyError)
                        | Some i =>
                            cf_collect rest
                              (held ++ [cf_record n contest_time i])
                        end
                    end
                end
            end
      end
  end.

Definition cf_attempt (replies : nat -> cf_reply) (attempt : nat)
    (held : list ContestInfo) : attempt_result :=
  let held := @nil ContestInfo in                         (* self.cf.clear() *)
  match replies attempt with
  | CfError _ => Fell_through held
  | CfJson status result =>
      if negb (bool_decide (status = Some "OK")) then Continued held
      else
        match result with
        | None => Fell_through held                       (* data['result'] *)
        | Some result =>
            match cf_collect result held with
            | (held, Some _) => Fell_through held
            | (held, None) => Returned (rev held)         (* self.cf.reverse() *)
            end
        end
  end.

(** The reply makes the attempt raise inside the record loop after at least
    one record has been appended to [self.cf]. *)
Definition cf_raises_midway (reply : cf_reply) : bool :=
  match reply with
  | CfJson status (Some result) =>
      bool_decide (status = Some "OK") &&
      match cf_collect result [] with
      | (_ :: _, Some _) => true
      | _ => false
      end
  | _ => false
  end.

(** The contests the loop is meant to keep: those before the first one whose
    phase is not ["BEFORE"]. *)
Definition is_before (c : cf_contest) : bool :=
  bool_decide (phase c = Some "BEFORE").

Fixpoint upcoming_prefix (result : list cf_contest) : list cf_contest :=
  match result with
  | [] => []
  | c :: rest => if is_before c then c :: upcoming_prefix rest else []
  end.

(** The record of a contest that has its three keys and a start time that
    can be printed. *)
Definition cf_info (c : cf_contest) : option ContestInfo :=
  n ← name c; t ← startTimeSeconds c; contest_time ← strftime_local t;
  i ← id c; Some (cf_record n contest_time i).

(** The start time, when there is one, is one [time.localtime] accepts. *)
Definition in_time_range (c : cf_contest) : Prop :=
  forall t, startTimeSeconds c = Some t -> is_Some (strftime_local t).

(** The attempt that gets this reply returns [True]. *)
Definition cf_reply_returns (reply : cf_reply) : bool :=
  match reply with
  | CfJson status (Some result) =>
      bool_decide (status = Some "OK") &&
      bool_decide ((cf_collect result []).2 = None)
  | _ => false
  end.

(** A contest object with the four keys of the API's schema. *)
Definition complete (c : cf_contest) : Prop :=
  is_Some (phase c) /\ is_Some (name c)
  /\ is_Some (startTimeSeconds c) /\ is_Some (id c).

Definition get_data_cf (replies : nat -> cf_reply) (force_refresh : bool)
    (held : list ContestInfo) : bool * list ContestInfo * list event :=
  fetch (cf_attempt replies) force_refresh held.

(** *** Nowcoder *)

(** An element of [data['data']]. *)
Record nc_contest : Type := {
  startTime : option Z;
  contestName : option string;
  link : option string
}.

Inductive nc_reply : Type :=
| NcError (e : py_exn)
| NcJson (msg : option string) (code : option Z) (data : option (list nc_contest)).

(** [for contest in data.get("data", [])] with the request's own time stamp
    in milliseconds. *)
Fixpoint nc_collect (current_timestamp : Z) (data : list nc_contest)
    (held : list ContestInfo) : list ContestInfo * option py_exn :=
  match data with
  | [] => (held, None)
  | contest :: rest =>
      if default 0 (startTime contest) >=? current_timestamp then
        match startTime contest with
        | None => (held, Some KeyError)               (* contest['startTime'] *)
        | Some t =>
            match strftime_local_ms t with
            | None => (held, Some OverflowError)
            | Some contest_time =>
                nc_collect current_timestamp rest
                  (held ++ [ {| contest_name := default "" (contestName contest);
                                contest_time := contest_time;
                                contest_url := default "" (link contest) |} ])
            end
        end
      else nc_collect current_timestamp rest held
  end.

(** The start time of a contest that the loop keeps can be printed:
    [time.localtime] accepts it. *)
Definition nc_in_time_range (current_timestamp : Z) (c : nc_contest) : Prop :=
  forall t, startTime c = Some t -> current_timestamp <= t ->
            is_Some (strftime_local_ms t).

(** Each attempt reads the clock (milliseconds) and gets a reply. *)
Definition nc_attempt (replies : nat -> Z * nc_reply) (attempt : nat)
    (held : list ContestInfo) : attempt_result :=
  let '(current_timestamp, reply) := replies attempt in
  let held := @nil ContestInfo in                         (* self.nc.clear() *)
  match reply with
  | NcError _ => Fell_through held
  | NcJson msg code data =>
      if negb (bool_decide (msg = Some "OK")) || negb (bool_decide (code = Some 0))
      then Continued held
      else
        match nc_collect current_timestamp (default [] data) held with
        | (held, Some _) => Fell_through held
        | (held, None) => Returned held
        end
  end.

(** As [cf_raises_midway], for [self.nc]. *)
Definition nc_raises_midway (r : Z * nc_reply) : bool :=
  match r with
  | (current_timestamp, NcJson msg code data) =>
      bool_decide (msg = Some "OK") && bool_decide (code = Some 0) &&
      match nc_collect current_timestamp (default [] data) [] with
      | (_ :: _, Some _) => true
      | _ => false
      end
  | _ => false
  end.

(** The attempt that gets this reply returns [True]. *)
Definition nc_reply_returns (r : Z * nc_reply) : bool :=
  match r with
  | (current_timestamp, NcJson msg code data) =>
      bool_decide (msg = Some "OK") && bool_decide (code = Some 0) &&
      bool_decide ((nc_collect current_timestamp (default [] data) []).2 = None)
  | _ => false
  end.

Definition get_data_nc (replies : nat -> Z * nc_reply) (force_refresh : bool)
    (held : list ContestInfo) : bool * list ContestInfo * list event :=
  fetch (nc_attempt replies) force_refresh held.

(** *** AtCoder *)

(** A [td] of the table, as far as the parser looks into it: the first [a]
    inside it (its text and its [href] attribute) and the text of the first
    [time] element. *)
Record atc_cell : Type := {
  anchor : option (string * option string);
  time_tag : option string
}.

(** What one request for the contest page brings back. *)
Inductive atc_reply : Type :=
| AtcError (e : py_exn)          (* the request or the HTML parser raises *)
| AtcNoTable                     (* no [div] with id [contest-table-upcoming] *)
| AtcNoTbody                     (* the [div] has no [tbody] *)
| AtcCells (cells : list atc_cell).   (* [tbody.find_all('td')] *)

(** [x.attr] or [x.method()] where [x] may be [None]. *)
Definition attribute_of {A} (x : option A) : result A :=
  match x with
  | Some a => Return a
  | None => Raise AttributeError
  end.

(** Body of the inner [try]: the contest whose five cells start at [i]. *)
Definition atc_row (cells : list atc_cell) (i : nat) : result ContestInfo :=
  name_cell ← index cells (i + 1);
  a ← attribute_of (anchor name_cell);
  let contest_name := py_strip a.1 in
  link_tag ← attribute_of (anchor name_cell);
  contest_url ← match link_tag.2 with
                 | Some href => Return ("https://atcoder.jp" ++ href)
                 | None => Raise TypeError            (* str + None *)
                 end;
  time_cell ← index cells i;
  time_text ← attribute_of (time_tag time_cell);
  contest_time ← match atc_contest_time time_text with
                  | Some t => Return t
                  | None => Raise ValueError           (* strptime *)
                  end;
  Return {| contest_name := contest_name;
            contest_time := contest_time;
            contest_url := contest_url |}.

(** [except (AttributeError, ValueError, IndexError)] of the inner [try]. *)
Definition atc_row_catches (e : py_exn) : bool :=
  match e with
  | AttributeError | ValueError | IndexError => true
  | _ => false
  end.

(** [for i in range(...)]: a row whose exception is caught is skipped, any
    other exception ends the loop. *)
Fixpoint atc_rows (cells : list atc_cell) (starts : list nat)
    (contests_data : list ContestInfo) : result (list ContestInfo) :=
  match starts with
  | [] => Return contests_data
  | i :: starts' =>
      match atc_row cells i with
      | Return c => atc_rows cells starts' (contests_data ++ [c])
      | Raise e =>
          if atc_row_catches e then atc_rows cells starts' contests_data
          else Raise e
      end
  end.

Definition atc_attempt (replies : nat -> atc_reply) (attempt : nat)
    (held : list ContestInfo) : attempt_result :=
  let held := @nil ContestInfo in                        (* self.atc.clear() *)
  match replies attempt with
  | AtcError _ => Fell_through held
  | AtcNoTable => Continued held
  | AtcNoTbody => Continued held
  | AtcCells cells =>
      if (length cells <? 10)%nat then Continued held
      else
        match atc_rows cells (py_range (length cells `min` 10) 5) [] with
        | Raise _ => Fell_through held
        | Return contests_data =>
            if truthy contests_data then Returned (take 2 contests_data)
            else Fell_through held
        end
  end.

(** What makes an attempt on this reply end without [return True]: the
    request or the parser raised, the table or its body is missing, there
    are fewer than ten cells, or one of the two rows read raised. *)
Definition atc_step_failed (reply : atc_reply) : Prop :=
  match reply with
  | AtcCells cells =>
      (length cells < 10)%nat
      \/ exists i e, (i = 0 \/ i = 5)%nat /\ atc_row cells i = Raise e
  | _ => True
  end.

Definition get_data_atc (replies : nat -> atc_reply) (force_refresh : bool)
    (held : list ContestInfo) : bool * list ContestInfo * list event :=
  fetch (atc_attempt replies) force_refresh held.

(** *** Today's contests *)

(** The replies the three sources give to successive attempts. *)
Record network : Type := {
  cf_replies : nat -> cf_reply;
  nc_replies : nat -> Z * nc_reply;
  atc_replies : nat -> atc_reply
}.

(** The [asyncio.gather] of the three fetchers with [force_refresh] left at
    its default. Each fetcher reads and writes only its own list, so the
    lists after the gather do not depend on the interleaving. *)
Definition refresh_all (net : network) (m : ContestDataManager)
  : ContestDataManager :=
  {| cf := (get_data_cf (cf_replies net) false (cf m)).1.2;
     nc := (get_data_nc (nc_replies net) false (nc m)).1.2;
     atc := (get_data_atc (atc_replies net) false (atc m)).1.2 |}.

Definition contest_lines (c : ContestInfo) : string :=
  "比赛名称：" ++ contest_name c ++ nl ++
  "比赛时间：" ++ contest_time c ++ nl ++
  "比赛链接：" ++ contest_url c.

(** The inner loop of [get_today_info]: the contests whose time parses to
    today's date; a [ValueError] skips the contest. *)
Definition platform_contests (today : Z) (contests : list ContestInfo)
  : list string :=
  contest_lines <$>
    filter (fun c => strptime_date (contest_time c) = Some today) contests.

Definition platform_part (today : Z) (heading : string)
    (contests : list ContestInfo) : list string :=
  let found := platform_contests today contests in
  if truthy found
  then [heading ++ nl ++ String.concat (nl ++ nl) found]
  else [].

Definition no_data_message : string := "查询出错了，稍后再尝试哦~".
Definition no_contest_message : string := "今天没有比赛，但也要好好做题哦~".
Definition found_heading : string := "找到今天的比赛如下：" ++ nl ++ nl.

(** The message built from the held lists, after the gather. *)
Definition today_message (today : Z) (m : ContestDataManager) : string :=
  let msg_parts :=
    (platform_part today "◉Codeforces比赛：" (cf m) ++
     platform_part today "◉牛客比赛：" (nc m) ++
     platform_part today "◉AtCoder比赛：" (atc m))%list in
  if negb (truthy (cf m) || truthy (nc m) || truthy (atc m))
  then no_data_message
  else if negb (truthy msg_parts) then no_contest_message
  else found_heading ++ String.concat (nl ++ nl) msg_parts.

Definition get_today_info (net : network) (today : Z) (m : ContestDataManager)
  : string * ContestDataManager :=
  let m' := refresh_all net m in
  (today_message today m', m').

End WithPyLib.

(** An implementation of [PyLib] to run the model on examples: it prints a
    time stamp as its number of seconds and refuses one of 2^55 and more,
    reads every date as day 0 and leaves strings as they are. The examples
    below do not depend on these choices. *)
Definition example_lib : PyLib :=
  {| strftime_local := fun seconds =>
       if Z.abs seconds <? 2 ^ 55 then Some (pretty seconds) else None;
     strftime_local_ms := fun ms =>
       if Z.abs ms <? 2 ^ 55 then Some (pretty (ms / 1000)) else None;
     strptime_date := fun _ => Some 0;
     atc_contest_time := fun s => Some s;
     py_strip := fun s => s;
     py_int := fun s => if String.eqb s "8" then Some 8
                        else if String.eqb s "30" then Some 30 else None |}.

(** Sample data for the examples. *)
Definition sample_contest : ContestInfo :=
  {| contest_name := "Round 1"; contest_time := "2026-01-01 10:00";
     contest_url := "https://codeforces.com/contest/1" |}.


(** A Codeforces feed with phases BEFORE, BEFORE, CODING. *)
Definition sample_feed : list cf_contest :=
  [ {| phase := Some "BEFORE"; name := Some "Round A";
       startTimeSeconds := Some 100; id := Some 1 |};
    {| phase := Some "BEFORE"; name := Some "Round B";
       startTimeSeconds := Some 200; id := Some 2 |};
    {| phase := Some "CODING"; name := Some "Round C";
       startTimeSeconds := Some 50; id := Some 3 |} ].

(** A feed whose second object lacks the [name] key. *)
Definition broken_feed : list cf_contest :=
  [ {| phase := Some "BEFORE"; name := Some "Round A";
       startTimeSeconds := Some 100; id := Some 1 |};
    {| phase := Some "BEFORE"; name := None;
       startTimeSeconds := Some 200; id := Some 2 |} ].

(** Codeforces has no upcoming contest; the two other sources time out. *)
Definition empty_feed_network : network :=
  {| cf_replies := fun _ => CfJson (Some "OK") (Some []);
     nc_replies := fun _ => (0, NcError TimeoutException);
     atc_replies := fun _ => AtcError TimeoutException |}.

(** The cells of an AtCoder table listing three contests. *)
Definition sample_row (n : string) : list atc_cell :=
  [ {| anchor := None; time_tag := Some "2026-01-03 21:00:00+0900" |};
    {| anchor := Some (n, Some ("/contests/" ++ n)); time_tag := None |};
    {| anchor := None; time_tag := None |};
    {| anchor := None; time_tag := None |};
    {| anchor := None; time_tag := None |} ].

Definition sample_cells : list atc_cell :=
  sample_row "abc1" ++ sample_row "abc2" ++ sample_row "abc3".

(** *** The per-source queries *)

Section Queries.
Context `{PyLib}.

Definition fetch_error_message : string := "突然出错了，稍后再试哦~".

(** [msg_parts] of [get_cf_info] and [get_nc_info]: at most three contests. *)
Definition latest_three (held : list ContestInfo) : list string :=
  contest_lines <$> take 3 held.

Definition cf_heading (n : nat) : string :=
  "找到最近的 " ++ pretty n ++ " 场CF比赛为：" ++ nl ++ nl.

Definition nc_heading (n : nat) : string :=
  "找到最近的 " ++ pretty n ++ " 场牛客比赛为：" ++ nl ++ nl.

(** [get_cf_info]: fetch without forcing, then answer from [self.cf]. *)
Definition get_cf_info (replies : nat -> cf_reply) (held : list ContestInfo)
  : string * list ContestInfo * list event :=
  let '(_, held', evs) := get_data_cf replies false held in
  if negb (truthy held') then (fetch_error_message, held', evs)
  else
    let msg_parts := latest_three held' in
    (cf_heading (length msg_parts) ++ String.concat (nl ++ nl) msg_parts,
     held', evs).

Definition get_nc_info (replies : nat -> Z * nc_reply) (held : list ContestInfo)
  : string * list ContestInfo * list event :=
  let '(_, held', evs) := get_data_nc replies false held in
  if negb (truthy held') then (fetch_error_message, held', evs)
  else
    let msg_parts := latest_three held' in
    (nc_heading (length msg_parts) ++ String.concat (nl ++ nl) msg_parts,
     held', evs).

Definition atc_no_data_message : string := "暂无AtCoder比赛数据".

(** The three branches on [len(self.atc)] at the end of [get_atc_info]. *)
Definition atc_message (held : list ContestInfo) : string :=
  match held with
  | c0 :: c1 :: _ =>
      "找到最近的 2 场AtCoder比赛为：" ++ nl ++ nl ++
      contest_lines c0 ++ nl ++ nl ++ contest_lines c1
  | [c0] =>
      "找到 1 场AtCoder比赛为：" ++ nl ++ nl ++ contest_lines c0
  | [] => atc_no_data_message
  end.

Definition get_atc_info (replies : nat -> atc_reply) (held : list ContestInfo)
  : string * list ContestInfo * list event :=
  let '(_, held', evs) := get_data_atc replies false held in
  if negb (truthy held') then (fetch_error_message, held', evs)
  else (atc_message held', held', evs).

(** A contest of [data] that starts at or after the time stamp. *)
Definition nc_is_upcoming (current_timestamp : Z) (c : nc_contest) : bool :=
  match startTime c with
  | Some t => current_timestamp <=? t
  | None => false
  end.

(** A contest of [data] that [nc_collect] keeps, as it records it. *)
Definition nc_upcoming (current_timestamp : Z) (c : nc_contest)
  : option ContestInfo :=
  t ← startTime c;
  if t >=? current_timestamp
  then contest_time ← strftime_local_ms t;
       Some {| contest_name := default "" (contestName c);
               contest_time := contest_time;
               contest_url := default "" (link c) |}
  else None.

End Queries.

(** A reply with the cells behind the tenth dropped. *)
Definition first_ten_cells (reply : atc_reply) : atc_reply :=
  match reply with
  | AtcCells cells => AtcCells (take 10 cells)
  | _ => reply
  end.

(** A table of two contests whose first row has a link without [href]. *)
Definition no_href_cells : list atc_cell :=
  [ {| anchor := None; time_tag := Some "2026-01-03 21:00:00+0900" |};
    {| anchor := Some ("abc1", None); time_tag := None |};
    {| anchor := None; time_tag := None |};
    {| anchor := None; time_tag := None |};
    {| anchor := None; time_tag := None |} ] ++ sample_row "abc2".

(** A Nowcoder calendar: one contest in the past, one without a start
    time, one to come. *)
Definition sample_calendar : list nc_contest :=
  [ {| startTime := Some 1000; contestName := Some "Past"; link := Some "/p" |};
    {| startTime := None; contestName := Some "Undated"; link := None |};
    {| startTime := Some 9000; contestName := Some "Next"; link := Some "/n" |} ].

End DataSource.
(** ** main.py: the target time of [reminder_loop] *)

Module Main.
Import Config.

(** A naive [datetime]: the date as its day ordinal, and the time of day. *)
Record datetime : Type := {
  ordinal : Z;
  hour : Z;
  minute : Z;
  second : Z;
  microsecond : Z
}.

(** The ranges every [datetime] object keeps its fields in. *)
Definition valid_datetime (d : datetime) : Prop :=
  0 <= hour d <= 23 /\ 0 <= minute d <= 59 /\ 0 <= second d <= 59
  /\ 0 <= microsecond d <= 999999.

(** [now.replace(hour=h, minute=m, second=0, microsecond=0)]: a field out of
    range is a [ValueError]. *)
Definition replace_time (now : datetime) (h m : Z) : result datetime :=
  if (0 <=? h) && (h <=? 23) && (0 <=? m) && (m <=? 59)
  then Return {| ordinal := ordinal now; hour := h; minute := m;
                 second := 0; microsecond := 0 |}
  else Raise ValueError.

(** [a <= b] and [a < b] on datetimes: field by field, the date first. *)
Definition fields (d : datetime) : list Z :=
  [ordinal d; hour d; minute d; second d; microsecond d].

Fixpoint lex_compare (a b : list Z) : comparison :=
  match a, b with
  | x :: a', y :: b' =>
      match x ?= y with
      | Eq => lex_compare a' b'
      | c => c
      end
  | [], [] => Eq
  | [], _ :: _ => Lt
  | _ :: _, [] => Gt
  end.

Definition datetime_le (a b : datetime) : bool :=
  match lex_compare (fields a) (fields b) with
  | Gt => false
  | _ => true
  end.

Definition datetime_lt (a b : datetime) : bool :=
  match lex_compare (fields a) (fields b) with
  | Lt => true
  | _ => false
  end.

(** [d + timedelta(days=1)] *)
Definition add_one_day (d : datetime) : datetime :=
  {| ordinal := ordinal d + 1; hour := hour d; minute := minute d;
     second := second d; microsecond := microsecond d |}.

(** Microseconds since the start of ordinal day 0. *)
Definition to_microseconds (d : datetime) : Z :=
  (((ordinal d * 24 + hour d) * 60 + minute d) * 60 + second d) * 1000000
  + microsecond d.

(** [a - b] as a [timedelta], in microseconds; [total_seconds()] is this
    number divided by 10^6. *)
Definition timedelta_us (a b : datetime) : Z :=
  to_microseconds a - to_microseconds b.

Definition day_us : Z := 24 * 60 * 60 * 1000000.

(** How one pass through the [while True] body goes up to the long sleep. *)
Inductive schedule_step : Type :=
| Bad_config             (* inner [except (ValueError, KeyError)]: sleep 3600 *)
| Loop_error (e : py_exn)  (* outer [except Exception]: sleep 3600 *)
| Wait_until (target_time : datetime) (wait_us : Z).

Section WithPyLib.
Context `{PyLib}.

(** [int(config.matchreminder_time[key])] *)
Definition time_field (config : Config) (key : string) : result Z :=
  s ← subscript (matchreminder_time config) key;
  match py_int s with
  | Some n => Return n
  | None => Raise ValueError
  end.

(** Lines 256-276 of [reminder_loop]. *)
Definition reminder_loop_step (now : datetime) (config : Config) : schedule_step :=
  match (target_hour ← time_field config "hour";
         target_minute ← time_field config "minute";
         Return (target_hour, target_minute)) with
  | Raise _ => Bad_config
  | Return (target_hour, target_minute) =>
      match replace_time now target_hour target_minute with
      | Raise e => Loop_error e
      | Return target_time =>
          let target_time :=
            if datetime_le target_time now then add_one_day target_time
            else target_time in
          Wait_until target_time (timedelta_us target_time now)
      end
  end.

End WithPyLib.

(** 08:31:00 on ordinal day 739922. *)
Definition sample_now : datetime :=
  {| ordinal := 739922; hour := 8; minute := 31; second := 0;
     microsecond := 0 |}.

(** *** The reminder task *)

(** [self.reminder_task]: [None], a task that is not done, or a task that
    is done. *)
Inductive task_state : Type :=
| No_task
| Running
| Done.

(** [self.reminder_task and not self.reminder_task.done()] *)
Definition task_active (t : task_state) : bool :=
  match t with
  | Running => true
  | _ => false
  end.

(** [start_reminder_task]: nothing to do when a task is active; otherwise
    [asyncio.create_task], whose failure is caught and gives [False]. *)
Definition start_reminder_task (spawn_ok : bool) (t : task_state)
  : bool * task_state :=
  if task_active t then (true, t)
  else if spawn_ok then (true, Running)
  else (false, t).

(** [stop_reminder_task]: an active task is cancelled and awaited; the
    field is reset. The first component tells whether [cancel] was called. *)
Definition stop_reminder_task (t : task_state) : bool * bool * task_state :=
  (task_active t, true, No_task).

(** [restart_reminder_task] *)
Definition restart_reminder_task (spawn_ok : bool) (config : Config)
    (t : task_state) : bool * task_state :=
  let '(_, _, t1) := stop_reminder_task t in
  if enable_auto_reminder config then start_reminder_task spawn_ok t1
  else (true, t1).

(** [initialize] *)
Definition initialize (spawn_ok : bool) (config : Config) (t : task_state)
  : task_state :=
  if enable_auto_reminder config then (start_reminder_task spawn_ok t).2
  else t.

(** The command handler [toggle_auto_reminder] of the plugin: the new
    configuration manager, the task and the reply. *)
Definition toggle_command (writable spawn_ok : bool) (m : ConfigManager)
    (t : task_state) : ConfigManager * task_state * string :=
  let '(enabled, m') := toggle_auto_reminder writable m in
  if enabled
  then (m', (start_reminder_task spawn_ok t).2, "✅ 自动提醒已开启")
  else (m', (stop_reminder_task t).2, "❌ 自动提醒已关闭").

(** Today at the configured time, as [now.replace] builds it. *)
Definition fire_time_today (now : datetime) (h m : Z) : datetime :=
  {| ordinal := ordinal now; hour := h; minute := m;
     second := 0; microsecond := 0 |}.

(** The configured time on the day of ordinal [day]. *)
Definition fire_time_on (day h m : Z) : datetime :=
  {| ordinal := day; hour := h; minute := m; second := 0; microsecond := 0 |}.

End Main.

(** * Properties *)

Lemma truthy_false {A} (l : list A) : truthy l = false <-> l = [].
Proof. destruct l; simpl; split; congruence. Qed.

(** ** config.py *)

Module ConfigProps.
Import Config.

Lemma save_config_keeps_config writable m :
  config (snd (save_config writable m)) = config m.
Proof. unfold save_config. destruct writable; reflexivity. Qed.

Lemma toggle_config writable m :
  config (snd (toggle_auto_reminder writable m))
  = set_enable (config m) (negb (enabled m)).
Proof. unfold toggle_auto_reminder, save_config. destruct writable; reflexivity. Qed.

Lemma toggle_returns_flag writable m :
  fst (toggle_auto_reminder writable m)
  = enabled (snd (toggle_auto_reminder writable m)).
Proof. unfold toggle_auto_reminder, save_config. destruct writable; reflexivity. Qed.

(** C10: [toggle_auto_reminder] flips the enabled flag and returns the new
    value, whether or not the save succeeds; two consecutive calls bring the
    flag (and the whole in-memory configuration) back to where it was. *)
Theorem toggle_auto_reminder_involution (w1 w2 : bool) (m : ConfigManager) :
  let r1 := toggle_auto_reminder w1 m in
  let r2 := toggle_auto_reminder w2 (snd r1) in
  fst r1 = negb (enabled m)
  /\ enabled (snd r1) = negb (enabled m)
  /\ fst r2 = enabled m
  /\ enabled (snd r2) = enabled m
  /\ config (snd r2) = config m.
Proof.
  destruct m as [[t l e] f].
  destruct e, w1, w2; cbn; auto.
Qed.

(** *** The group list *)

Lemma list_remove_app_fresh (x : string) (l : list string) :
  x ∉ l -> list_remove x (l ++ [x]) = l.
Proof.
  induction l as [|y l IH]; intros Hx; simpl.
  - rewrite bool_decide_eq_true_2 by reflexivity. reflexivity.
  - apply not_elem_of_cons in Hx. destruct Hx as [Hne Hx].
    rewrite bool_decide_eq_false_2 by congruence.
    rewrite IH by assumption. reflexivity.
Qed.

Lemma list_remove_elem_of (x y : string) (l : list string) :
  y <> x -> (y ∈ list_remove x l <-> y ∈ l).
Proof.
  intros Hne. induction l as [|z l IH]; simpl; [reflexivity|].
  destruct (bool_decide_reflect (z = x)) as [-> | Hz].
  - rewrite elem_of_cons. split; [auto | intros [? | ?]; [congruence | auto]].
  - rewrite !elem_of_cons, IH. reflexivity.
Qed.

Lemma list_remove_nodup (x : string) (l : list string) :
  NoDup l -> (x ∉ list_remove x l) /\ NoDup (list_remove x l).
Proof.
  induction 1 as [|z l Hz Hl IH]; simpl.
  - split; [apply not_elem_of_nil | constructor].
  - destruct (bool_decide_reflect (z = x)) as [-> | Hne].
    + split; assumption.
    + destruct IH as [Hx Hnd]. split.
      * rewrite not_elem_of_cons. split; [congruence | assumption].
      * constructor; [|assumption].
        rewrite list_remove_elem_of by assumption. assumption.
Qed.

Lemma add_group_list (writable : bool) (group_id : string) (m : ConfigManager) :
  matchreminder_list (config (add_group writable group_id m).2)
  = (if bool_decide (group_id ∈ matchreminder_list (config m))
     then matchreminder_list (config m)
     else (matchreminder_list (config m) ++ [group_id])%list).
Proof.
  unfold add_group, save_config.
  destruct (bool_decide (group_id ∈ matchreminder_list (config m)));
    [reflexivity|].
  destruct writable; reflexivity.
Qed.

Lemma add_group_listed (writable : bool) (group_id : string) (m : ConfigManager) :
  group_id ∈ matchreminder_list (config (add_group writable group_id m).2).
Proof.
  rewrite add_group_list.
  destruct (bool_decide_reflect (group_id ∈ matchreminder_list (config m)));
    [assumption|].
  apply elem_of_app. right. apply list_elem_of_here.
Qed.

(** [add_group] always leaves the group listed in memory; it returns [True]
    exactly when the group was not listed and the save went through, so
    [False] can also mean a group that was added but not saved. The time and
    the flag are untouched. *)
Theorem add_group_outcome (writable : bool) (group_id : string)
    (m : ConfigManager) :
  let r := add_group writable group_id m in
  group_id ∈ matchreminder_list (config r.2)
  /\ (r.1 = true
      <-> (group_id ∉ matchreminder_list (config m)) /\ writable = true)
  /\ matchreminder_list (config r.2)
     = (if bool_decide (group_id ∈ matchreminder_list (config m))
        then matchreminder_list (config m)
        else (matchreminder_list (config m) ++ [group_id])%list)
  /\ matchreminder_time (config r.2) = matchreminder_time (config m)
  /\ enable_auto_reminder (config r.2) = enable_auto_reminder (config m).
Proof.
  cbv zeta. unfold add_group, save_config.
  destruct (bool_decide_reflect (group_id ∈ matchreminder_list (config m)))
    as [Hin | Hout]; cbn [negb].
  - repeat split_and; try reflexivity; try assumption.
    split; [discriminate | intros [Hc _]; contradiction].
  - destruct writable; cbn [fst snd config with_config set_list
                              matchreminder_list matchreminder_time
                              enable_auto_reminder];
      repeat split_and; try reflexivity;
      try (apply elem_of_app; right; apply list_elem_of_here).
    + split; auto.
    + split; [discriminate | intros [_ Hc]; discriminate].
Qed.

(** A list without a repeated group stays so under [add_group]. *)
Theorem add_group_keeps_nodup (writable : bool) (group_id : string)
    (m : ConfigManager) :
  NoDup (matchreminder_list (config m)) ->
  NoDup (matchreminder_list (config (add_group writable group_id m).2)).
Proof.
  intros Hnd. rewrite add_group_list.
  destruct (bool_decide_reflect (group_id ∈ matchreminder_list (config m)))
    as [Hin | Hout]; [assumption|].
  apply NoDup_app. repeat split_and.
  - assumption.
  - intros x Hx Hx'. apply list_elem_of_singleton in Hx'. subst. contradiction.
  - apply NoDup_singleton.
Qed.

Lemma add_group_keeps_nodup_witness :
  NoDup (matchreminder_list (config (add_group true "g3" sample_manager).2)).
Proof.
  apply (add_group_keeps_nodup true "g3" sample_manager).
  simpl. repeat constructor; rewrite ?elem_of_cons, ?elem_of_nil;
    intros Hc; repeat destruct Hc as [Hc | Hc]; try discriminate; contradiction.
Defined.

(** Adding a group a second time changes nothing and returns [False]. *)
Theorem add_group_twice (w1 w2 : bool) (group_id : string) (m : ConfigManager) :
  add_group w2 group_id (add_group w1 group_id m).2
  = (false, (add_group w1 group_id m).2).
Proof.
  unfold add_group at 1.
  rewrite bool_decide_eq_true_2 by apply add_group_listed. reflexivity.
Qed.

(** Removing a group that was just added to a list that did not have it
    gives the list back, whether or not the saves went through. *)
Theorem remove_group_undoes_add_group (w1 w2 : bool) (group_id : string)
    (m : ConfigManager) :
  group_id ∉ matchreminder_list (config m) ->
  matchreminder_list
    (config (remove_group w2 group_id (add_group w1 group_id m).2).2)
  = matchreminder_list (config m).
Proof.
  intros Hout. unfold remove_group, add_group.
  rewrite (bool_decide_eq_false_2 _ Hout). cbn [negb].
  unfold save_config.
  destruct w1, w2; cbn [fst snd config with_config set_list matchreminder_list];
    (rewrite bool_decide_eq_true_2
       by (apply elem_of_app; right; apply list_elem_of_here));
    cbn [fst snd config with_config set_list matchreminder_list];
    apply list_remove_app_fresh; assumption.
Qed.

Lemma remove_group_undoes_add_group_witness :
  matchreminder_list
    (config (remove_group true "g3" (add_group false "g3" sample_manager).2).2)
  = ["g1"; "g2"].
Proof.
  apply (remove_group_undoes_add_group false true "g3" sample_manager).
  simpl. rewrite !elem_of_cons, elem_of_nil.
  intros Hc; repeat destruct Hc as [Hc | Hc]; try discriminate; contradiction.
Defined.

(** On a list without a repeated group, [remove_group] leaves the group out
    and every other group in, and returns [True] exactly when the group was
    listed and the save went through. *)
Theorem remove_group_outcome (writable : bool) (group_id : string)
    (m : ConfigManager) :
  NoDup (matchreminder_list (config m)) ->
  let r := remove_group writable group_id m in
  (group_id ∉ matchreminder_list (config r.2))
  /\ (forall g, g <> group_id ->
        (g ∈ matchreminder_list (config r.2)
         <-> g ∈ matchreminder_list (config m)))
  /\ NoDup (matchreminder_list (config r.2))
  /\ (r.1 = true
      <-> group_id ∈ matchreminder_list (config m) /\ writable = true).
Proof.
  intros Hnd. cbv zeta. unfold remove_group, save_config.
  destruct (bool_decide_reflect (group_id ∈ matchreminder_list (config m)))
    as [Hin | Hout].
  - destruct (list_remove_nodup group_id _ Hnd) as [Hgone Hnd'].
    destruct writable; cbn [fst snd config with_config set_list
                              matchreminder_list];
      repeat split_and; try assumption;
      try (intros g Hg; apply list_remove_elem_of; assumption).
    + split; auto.
    + split; [discriminate | intros [_ Hc]; discriminate].
  - cbn [fst snd]. repeat split_and; try assumption.
    + reflexivity.
    + split; [discriminate | intros [Hc _]; contradiction].
Qed.

Lemma remove_group_outcome_witness :
  ("g1" ∉ matchreminder_list (config (remove_group true "g1" sample_manager).2))
  /\ (remove_group true "g1" sample_manager).1 = true.
Proof.
  destruct (remove_group_outcome true "g1" sample_manager)
    as (Hgone & _ & _ & Hret).
  - simpl. repeat constructor; rewrite ?elem_of_cons, ?elem_of_nil;
      intros Hc; repeat destruct Hc as [Hc | Hc]; try discriminate; contradiction.
  - split; [exact Hgone | reflexivity].
Defined.

(** *** The reminder time *)

Section ReminderTime.
Context `{PyLib}.

Lemma time_in_range_spec (h mi : Z) :
  time_in_range h mi = true <-> 0 <= h <= 23 /\ 0 <= mi <= 59.
Proof.
  unfold time_in_range. rewrite !Bool.andb_true_iff, !Z.leb_le. lia.
Qed.

(** A time that does not read as two integers in range is refused and
    nothing changes, in memory or on disk. *)
Theorem set_reminder_time_refuses (writable : bool) (hour minute : string)
    (m : ConfigManager) :
  (forall h mi, py_int hour = Some h -> py_int minute = Some mi ->
                ~ (0 <= h <= 23 /\ 0 <= mi <= 59)) ->
  set_reminder_time writable hour minute m = (false, m).
Proof.
  intros Hbad. unfold set_reminder_time.
  destruct (py_int hour) as [h|]; [|reflexivity].
  destruct (py_int minute) as [mi|]; [|reflexivity].
  destruct (time_in_range h mi) eqn:Hr; [|reflexivity].
  exfalso. apply (Hbad h mi eq_refl eq_refl).
  apply time_in_range_spec. assumption.
Qed.

(** A time in range is always put in memory, as the two strings given; the
    flag returned only tells whether it was also saved, so [False] does not
    mean that the time was refused. *)
Theorem set_reminder_time_accepts (writable : bool) (hour minute : string)
    (h mi : Z) (m : ConfigManager) :
  py_int hour = Some h -> py_int minute = Some mi ->
  0 <= h <= 23 -> 0 <= mi <= 59 ->
  let r := set_reminder_time writable hour minute m in
  r.1 = writable
  /\ matchreminder_time (config r.2) = {[ "hour" := hour; "minute" := minute ]}
  /\ matchreminder_list (config r.2) = matchreminder_list (config m)
  /\ enable_auto_reminder (config r.2) = enable_auto_reminder (config m)
  /\ config_file r.2
     = (if writable then Some (config r.2) else config_file m).
Proof.
  intros Hh Hmi Hhr Hmr. cbv zeta. unfold set_reminder_time.
  rewrite Hh, Hmi.
  rewrite (proj2 (time_in_range_spec h mi) (conj Hhr Hmr)). cbn [negb].
  unfold save_config. destruct writable; repeat split_and; reflexivity.
Qed.

End ReminderTime.

Lemma set_reminder_time_refuses_witness :
  @set_reminder_time DataSource.example_lib true "30" "8" sample_manager
  = (false, sample_manager).
Proof.
  apply (@set_reminder_time_refuses DataSource.example_lib true "30" "8").
  intros h mi Hh Hmi. vm_compute in Hh. inversion Hh; subst. lia.
Defined.

Lemma set_reminder_time_accepts_witness :
  (@set_reminder_time DataSource.example_lib false "8" "30" sample_manager).1
  = false
  /\ matchreminder_time
       (config (@set_reminder_time DataSource.example_lib false "8" "30"
                  sample_manager).2)
     = {[ "hour" := "8"; "minute" := "30" ]}.
Proof.
  destruct (@set_reminder_time_accepts DataSource.example_lib false "8" "30"
              8 30 sample_manager) as (Hflag & Htime & _);
    try reflexivity; try lia.
  split; [exact Hflag | exact Htime].
Defined.

End ConfigProps.

(** ** data_source.py *)

Module DataSourceProps.
Import DataSource.

(** *** Rounding to binary64 *)

Lemma pow2_pos (e : Z) : (0 < pow2 e)%Q.
Proof. apply Qpower_0_lt. reflexivity. Qed.

Lemma pow2_add (a b : Z) : (pow2 (a + b) == pow2 a * pow2 b)%Q.
Proof. apply Qpower_plus. discriminate. Qed.

Lemma pow2_Z (n : Z) : 0 <= n -> (pow2 n == inject_Z (2 ^ n))%Q.
Proof. intros Hn. unfold pow2. rewrite (Zpower_Qpower 2 n Hn). reflexivity. Qed.

Lemma pow2_le (a b : Z) : a <= b -> (pow2 a <= pow2 b)%Q.
Proof. intros Hab. apply Qpower_le_compat_l; [assumption | discriminate]. Qed.

Lemma pow2_lt_inv (a b : Z) : (pow2 a < pow2 b)%Q -> a < b.
Proof. intros H. apply (Qpower_lt_compat_l_inv 2); [assumption | reflexivity]. Qed.

Lemma log2_floor_le (q : Q) : (0 < q)%Q -> (pow2 (log2_floor q) <= q)%Q.
Proof.
  intros Hq. unfold log2_floor. destruct q as [a b]. cbn [Qnum Qden].
  set (l := Z.log2 a - Z.log2 (Z.pos b)).
  destruct (Qle_bool (pow2 l) (a # b)) eqn:Htest.
  - apply Qle_bool_iff. assumption.
  - assert (Ha : 0 < a) by (unfold Qlt in Hq; simpl in Hq; lia).
    pose proof (Z.log2_spec a Ha) as [Hla _].
    pose proof (Z.log2_spec (Z.pos b) eq_refl) as [_ Hlb].
    pose proof (Z.log2_nonneg a) as Hla0.
    pose proof (Z.log2_nonneg (Z.pos b)) as Hlb0.
    assert (Hsplit : (pow2 (Z.log2 a)
                      == pow2 (l - 1) * pow2 (Z.log2 (Z.pos b) + 1))%Q).
    { rewrite <- pow2_add. unfold l.
      replace (Z.log2 a - Z.log2 (Z.pos b) - 1 + (Z.log2 (Z.pos b) + 1))
        with (Z.log2 a) by lia. reflexivity. }
    assert (Hnum : (pow2 (Z.log2 a) <= inject_Z a)%Q).
    { rewrite pow2_Z by assumption. rewrite <- Zle_Qle. assumption. }
    assert (Hden : (inject_Z (Z.pos b) <= pow2 (Z.log2 (Z.pos b) + 1))%Q).
    { rewrite pow2_Z by lia. rewrite <- Zle_Qle.
      replace (Z.log2 (Z.pos b) + 1) with (Z.succ (Z.log2 (Z.pos b))) by lia.
      lia. }
    assert (Hq' : (a # b == inject_Z a / inject_Z (Z.pos b))%Q)
      by (rewrite Qmake_Qdiv; reflexivity).
    rewrite Hq'.
    apply Qle_shift_div_l; [reflexivity|].
    pose proof (pow2_pos (l - 1)) as Hp.
    apply Qle_trans with (pow2 (l - 1) * pow2 (Z.log2 (Z.pos b) + 1))%Q.
    + apply Qmult_le_l; assumption.
    + rewrite <- Hsplit. assumption.
Qed.

Lemma round_half_even_floor (x : Q) : Qfloor x <= round_half_even x <= Qfloor x + 1.
Proof.
  unfold round_half_even.
  destruct (x - inject_Z (Qfloor x) ?= 1 # 2)%Q; [destruct (Z.even _)| |]; lia.
Qed.

Lemma round_half_even_ge (x : Q) (n : Z) :
  (inject_Z n <= x)%Q -> n <= round_half_even x.
Proof.
  intros Hn. pose proof (round_half_even_floor x) as [Hf _].
  apply Z.le_trans with (Qfloor x); [|assumption].
  rewrite <- (Qfloor_Z n). apply Qfloor_resp_le. assumption.
Qed.

Lemma round_half_even_le (x : Q) (n : Z) :
  (x <= inject_Z n)%Q -> round_half_even x <= n.
Proof.
  intros Hn. pose proof (round_half_even_floor x) as [_ Hf].
  pose proof (Qfloor_le x) as Hfx.
  assert (Hfn : Qfloor x <= n).
  { rewrite Zle_Qle. apply Qle_trans with x; assumption. }
  destruct (Z.eq_dec (Qfloor x) n) as [Heq | Hne]; [|lia].
  unfold round_half_even. rewrite Heq in *.
  assert (Hx : (x - inject_Z n ?= 1 # 2)%Q = Lt).
  { rewrite <- Qlt_alt. clear - Hn. revert Hn. generalize (inject_Z n).
    intros y Hy. lra. }
  rewrite Hx. lia.
Qed.

Lemma Qabs_pos_eq (q : Q) : (0 < q)%Q -> Qabs q = q.
Proof.
  destruct q as [[|p|p] d]; unfold Qlt; simpl; intros H; try lia; reflexivity.
Qed.

Section GridConstant.
Variables (c : Q) (m k : Z).
Hypothesis c_grid : (c == inject_Z m * pow2 k)%Q.
Hypothesis c_pos : (0 < c)%Q.
Hypothesis m_bound : m < 2 ^ 53.
Hypothesis k_low : -1074 <= k.
Hypothesis k_high : k <= 971.

Lemma c_below : (c < pow2 (53 + k))%Q.
Proof.
  rewrite c_grid, pow2_add. apply Qmult_lt_r; [apply pow2_pos|].
  rewrite pow2_Z by lia. rewrite <- Zlt_Qlt. assumption.
Qed.

Lemma c_scaled (e : Z) :
  e <= k -> (c / pow2 e == inject_Z (m * 2 ^ (k - e)))%Q.
Proof.
  intros He. rewrite c_grid. rewrite inject_Z_mult.
  rewrite <- (pow2_Z (k - e)) by lia.
  replace k with ((k - e) + e) at 1 by lia. rewrite pow2_add.
  pose proof (pow2_pos e). field. lra.
Qed.

Lemma scaled_back (e n : Z) :
  e <= k -> (inject_Z (m * 2 ^ (k - e)) * pow2 e == c)%Q.
Proof.
  intros He. rewrite <- (c_scaled e He).
  pose proof (pow2_pos e). field. lra.
Qed.

Lemma round64_value_ge (q : Q) :
  (c <= q)%Q ->
  (c <= inject_Z (round_half_even (q / pow2 (ulp_exponent q)))
        * pow2 (ulp_exponent q))%Q.
Proof.
  intros Hcq. set (e := ulp_exponent q).
  pose proof (pow2_pos e) as He.
  assert (Hq : (0 < q)%Q) by lra.
  destruct (Z_le_gt_dec e k) as [Hek | Hek].
  - rewrite <- (scaled_back e 0 Hek).
    apply Qmult_le_compat_r; [|lra].
    rewrite <- Zle_Qle. apply round_half_even_ge.
    rewrite <- (c_scaled e Hek).
    apply Qmult_le_compat_r; [assumption|].
    apply Qlt_le_weak, Qinv_lt_0_compat. assumption.
  - assert (Hdef : e = log2_floor q - 52).
    { unfold e, ulp_exponent in *. rewrite (Qabs_pos_eq q Hq) in *. lia. }
    assert (Hbig : 2 ^ 52 <= round_half_even (q / pow2 e)).
    { apply round_half_even_ge. rewrite <- (pow2_Z 52) by lia.
      apply Qle_shift_div_l; [assumption|].
      rewrite <- pow2_add. replace (52 + e) with (log2_floor q) by lia.
      apply log2_floor_le. assumption. }
    apply Qle_trans with (pow2 (53 + k)); [apply Qlt_le_weak, c_below|].
    apply Qle_trans with (pow2 (52 + e)); [apply pow2_le; lia|].
    rewrite pow2_add. apply Qmult_le_compat_r; [|lra].
    rewrite pow2_Z by lia. rewrite <- Zle_Qle. assumption.
Qed.

Lemma round64_ge (q : Q) : (c <= q)%Q -> float_ge (round64 q) c.
Proof.
  intros Hcq. pose proof (round64_value_ge q Hcq) as Hv.
  unfold round64.
  destruct (Qeq_bool q 0) eqn:Hz.
  - apply Qeq_bool_iff in Hz. simpl. lra.
  - cbv zeta.
    destruct (Qle_bool (pow2 1024) _) eqn:Hinf; [exact I|].
    destruct (Qle_bool _ (- pow2 1024)) eqn:Hninf.
    + apply Qle_bool_iff in Hninf. pose proof (pow2_pos 1024). simpl. lra.
    + simpl. assumption.
Qed.

Lemma round64_value_le (q : Q) :
  (0 < q)%Q -> (q <= c)%Q ->
  (inject_Z (round_half_even (q / pow2 (ulp_exponent q)))
   * pow2 (ulp_exponent q) <= c)%Q.
Proof.
  intros Hq Hqc. set (e := ulp_exponent q).
  pose proof (pow2_pos e) as He.
  destruct (Z_le_gt_dec e k) as [Hek | Hek].
  - rewrite <- (scaled_back e 0 Hek).
    apply Qmult_le_compat_r; [|lra].
    rewrite <- Zle_Qle. apply round_half_even_le.
    rewrite <- (c_scaled e Hek).
    apply Qmult_le_compat_r; [assumption|].
    apply Qlt_le_weak, Qinv_lt_0_compat. assumption.
  - exfalso.
    assert (Hdef : e = log2_floor q - 52).
    { unfold e, ulp_exponent in *. rewrite (Qabs_pos_eq q Hq) in *. lia. }
    assert (Hlt : (pow2 (log2_floor q) < pow2 (53 + k))%Q).
    { apply Qle_lt_trans with q; [apply log2_floor_le; assumption|].
      apply Qle_lt_trans with c; [assumption | apply c_below]. }
    apply pow2_lt_inv in Hlt. lia.
Qed.

Lemma round64_le (q : Q) : (q <= c)%Q -> float_le (round64 q) c.
Proof.
  intros Hqc. unfold round64.
  destruct (Qeq_bool q 0) eqn:Hz.
  - simpl. lra.
  - cbv zeta. apply Qeq_bool_neq in Hz.
    set (e := ulp_exponent q). pose proof (pow2_pos e) as He.
    assert (Hv : (inject_Z (round_half_even (q / pow2 e)) * pow2 e <= c)%Q).
    { destruct (Qlt_le_dec 0 q) as [Hpos | Hneg].
      - apply round64_value_le; assumption.
      - apply Qle_trans with 0%Q; [|lra].
        assert (Hn : round_half_even (q / pow2 e) <= 0).
        { apply round_half_even_le. change (inject_Z 0) with 0%Q.
          apply Qle_shift_div_r; [assumption | lra]. }
        rewrite Zle_Qle in Hn. change (inject_Z 0) with 0%Q in Hn.
        apply Qle_trans with (0 * pow2 e)%Q; [|lra].
        apply Qmult_le_compat_r; lra. }
    destruct (Qle_bool (pow2 1024) _) eqn:Hinf.
    + apply Qle_bool_iff in Hinf. exfalso.
      pose proof c_below as Hc.
      assert (Hp : (pow2 (53 + k) <= pow2 1024)%Q) by (apply pow2_le; lia).
      lra.
    + destruct (Qle_bool _ (- pow2 1024)); simpl; [exact I | assumption].
Qed.

End GridConstant.

(** The two constants of the age test: 3600, and the last multiple of
    [2^-40] below it. *)
Lemma grid_3600 : (3600 == inject_Z 225 * pow2 4)%Q.
Proof. reflexivity. Qed.

Lemma grid_below_3600 :
  (3600 - pow2 (-40) == inject_Z (3600 * 2 ^ 40 - 1) * pow2 (-40))%Q.
Proof. reflexivity. Qed.

Lemma Qltb_lt (x y : Q) : Qltb x y = true <-> (x < y)%Q.
Proof.
  unfold Qltb. rewrite Bool.negb_true_iff.
  split.
  - intros Hb. apply Qnot_le_lt. intros Hle.
    apply Qle_bool_iff in Hle. congruence.
  - intros Hlt. destruct (Qle_bool y x) eqn:E; [|reflexivity].
    apply Qle_bool_iff in E. exfalso. exact (Qlt_not_le _ _ Hlt E).
Qed.

Lemma Qltb_ge (x y : Q) : Qltb x y = false <-> (y <= x)%Q.
Proof.
  unfold Qltb. rewrite Bool.negb_false_iff. apply Qle_bool_iff.
Qed.

(** A difference of an hour and more is never seen as less than an hour. *)
Lemma age_not_fresh (q : Q) :
  (3600 <= q)%Q -> float_lt_int (round64 q) 3600 = false.
Proof.
  intros Hq.
  pose proof (round64_ge 3600 225 4 grid_3600 eq_refl eq_refl
                ltac:(lia) q Hq) as Hge.
  destruct (round64 q) as [v | | |]; simpl in *; try contradiction.
  - apply Qltb_ge. assumption.
  - reflexivity.
Qed.

(** A difference of two clock readings that is less than an hour is seen
    as less than an hour. *)
Lemma age_fresh (x y : Q) :
  clock_grid x -> clock_grid y -> (x - y < 3600)%Q ->
  float_lt_int (round64 (x - y)) 3600 = true.
Proof.
  intros [a Ha] [b Hb] Hlt.
  pose proof (pow2_pos (-40)) as Hp.
  assert (Hd : (x - y == inject_Z (a - b) * pow2 (-40))%Q).
  { rewrite Ha, Hb. unfold Zminus. rewrite inject_Z_plus, inject_Z_opp. ring. }
  assert (Hab : (a - b <= 3600 * 2 ^ 40 - 1)%Z).
  { assert (Hs : (a - b < 3600 * 2 ^ 40)%Z); [|lia].
    rewrite Zlt_Qlt.
    apply (Qmult_lt_r _ _ (pow2 (-40)) Hp).
    rewrite <- Hd.
    assert (H3600 : (inject_Z (3600 * 2 ^ 40) * pow2 (-40) == 3600)%Q)
      by reflexivity.
    rewrite H3600. assumption. }
  assert (Hle : (x - y <= 3600 - pow2 (-40))%Q).
  { rewrite Hd, grid_below_3600.
    apply Qmult_le_compat_r; [|lra]. rewrite <- Zle_Qle. assumption. }
  assert (Hc : (0 < 3600 - pow2 (-40))%Q) by reflexivity.
  pose proof (round64_le (3600 - pow2 (-40)) (3600 * 2 ^ 40 - 1) (-40)
                grid_below_3600 Hc eq_refl ltac:(lia) ltac:(lia) (x - y)%Q Hle) as Hr.
  destruct (round64 (x - y)) as [v | | |]; simpl in *; try contradiction.
  - apply Qltb_lt. change (inject_Z 3600) with 3600%Q. lra.
  - reflexivity.
Qed.

(** Rounding can move a difference onto the bound: at 3600 s after the epoch
    a stamp of [2^-60] s is exactly an hour old for the test. *)
Example age_rounds_onto_the_bound :
  (3600 - pow2 (-60) < 3600)%Q
  /\ float_lt_int (round64 (3600 - pow2 (-60))) 3600 = false.
Proof. split; [reflexivity | vm_compute; reflexivity]. Qed.

(** *** The cache *)

Lemma contests_json_roundtrip (l : list ContestInfo) :
  contests_of_json (json_of_contests l) = Some l.
Proof.
  unfold contests_of_json, json_of_contests.
  apply mapM_Some. induction l as [|[n t u] l IH]; constructor; auto.
Qed.

(** A missing file and a file that is not JSON are absorbed. *)
Lemma load_cache_missing now : _load_cache now Missing = Return Keeps.
Proof. reflexivity. Qed.

Lemma load_cache_malformed now : _load_cache now Malformed = Return Keeps.
Proof. reflexivity. Qed.

(** So is an object whose time stamp is not a number. *)
Lemma load_cache_bad_timestamp now (m : gmap string json) v :
  m !! "timestamp" = Some v ->
  (forall n, v <> JInt n) -> (forall f, v <> JFloat f) ->
  (forall b, v <> JBool b) ->
  _load_cache now (Content (JObj m)) = Return Keeps.
Proof.
  intros Hm Hn Hf Hb. unfold _load_cache, load_cache_body. simpl.
  rewrite Hm. simpl.
  destruct v; simpl; try reflexivity.
  - exfalso. eapply Hb. reflexivity.
  - exfalso. eapply Hn. reflexivity.
  - exfalso. eapply Hf. reflexivity.
Qed.

(** An integer stamp too large for a float is not: the [OverflowError] of
    the subtraction is not caught either. *)
Example load_cache_huge_timestamp :
  _load_cache 5000 (Content (JObj {[ "timestamp" := JInt (10 ^ 309) ]}))
  = Raise OverflowError.
Proof. vm_compute. reflexivity. Qed.

(** C4: the load is meant to absorb every bad state of the cache file, but
    its [except] clause lets two of them through: a file that cannot be
    opened ([OSError]) and a file holding JSON that is not an object
    ([AttributeError] from [cache_data.get]), here the array [[]]. *)
Theorem load_cache_raises_to_caller (now : Q) :
  _load_cache now Unreadable = Raise OSError
  /\ _load_cache now (Content (JArr [])) = Raise AttributeError.
Proof. split; reflexivity. Qed.

Lemma load_cache_age (now : Q) (m : gmap string json) (v : json) (age : pyfloat) :
  m !! "timestamp" = Some v ->
  float_sub now v = Return age ->
  _load_cache now (Content (JObj m))
  = if float_lt_int age 3600
    then Return (Adopts (default (JArr []) (m !! "cf"))
                        (default (JArr []) (m !! "nc"))
                        (default (JArr []) (m !! "atc")))
    else Return Keeps.
Proof.
  intros Hm Hage. unfold _load_cache, load_cache_body. simpl.
  rewrite Hm. simpl. rewrite Hage. simpl.
  destruct (float_lt_int age 3600); reflexivity.
Qed.

Lemma load_cache_fresh (now t : Q) (m : gmap string json) :
  m !! "timestamp" = Some (JFloat (Finite t)) ->
  float_lt_int (round64 (now - t)) 3600 = true ->
  _load_cache now (Content (JObj m))
  = Return (Adopts (default (JArr []) (m !! "cf"))
                   (default (JArr []) (m !! "nc"))
                   (default (JArr []) (m !! "atc"))).
Proof.
  intros Hm Hlt.
  rewrite (load_cache_age now m _ (round64 (now - t)) Hm eq_refl).
  rewrite Hlt. reflexivity.
Qed.

Lemma load_cache_stale (now t : Q) (m : gmap string json) :
  m !! "timestamp" = Some (JFloat (Finite t)) ->
  (3600 <= now - t)%Q ->
  _load_cache now (Content (JObj m)) = Return Keeps.
Proof.
  intros Hm Hge.
  rewrite (load_cache_age now m _ (round64 (now - t)) Hm eq_refl).
  rewrite (age_not_fresh _ Hge). reflexivity.
Qed.




(** What [_save_cache] wrote is read back whole while it is fresh. *)
Lemma load_saved_snapshot (now t : Q) (m : ContestDataManager) f :
  float_lt_int (round64 (now - t)) 3600 = true ->
  exists eff,
    _load_cache now (_save_cache true t m f) = Return eff
    /\ manager_of_effect eff = Some m.
Proof.
  intros Hlt. unfold _save_cache, snapshot.
  eexists. split.
  - apply (load_cache_fresh now t); [reflexivity | exact Hlt].
  - assert (Hcf : snapshot_fields t m !! "cf" = Some (json_of_contests (cf m)))
      by reflexivity.
    assert (Hnc : snapshot_fields t m !! "nc" = Some (json_of_contests (nc m)))
      by reflexivity.
    assert (Hatc : snapshot_fields t m !! "atc" = Some (json_of_contests (atc m)))
      by reflexivity.
    rewrite Hcf, Hnc, Hatc. unfold manager_of_effect. simpl default.
    rewrite !contests_json_roundtrip. destruct m; reflexivity.
Qed.

(** *** The retry loop *)

Section RetryLoop.
Variable body : nat -> list ContestInfo -> attempt_result.

Lemma retry_loop_S n a held :
  retry_loop body (S n) a held
  = match body a held with
    | Returned held' => (true, held', [Request a; SaveCache])
    | Continued held' =>
        let '(ok, held'', evs) := retry_loop body n (S a) held' in
        (ok, held'', Request a :: evs)
    | Fell_through held' =>
        let '(ok, held'', evs) := retry_loop body n (S a) held' in
        (ok, held'', Request a :: backoff a ++ evs)
    end.
Proof. reflexivity. Qed.

(** Success comes from an attempt that returned, with the list it left. *)
Lemma retry_loop_true n a held held' evs :
  retry_loop body n a held = (true, held', evs) ->
  exists k h, (a <= k < a + n)%nat /\ body k h = Returned held'.
Proof.
  revert a held held' evs.
  induction n as [|n IH]; intros a held held' evs Hrun; simpl in Hrun.
  - discriminate.
  - destruct (body a held) as [h|h|h] eqn:Hb.
    + inversion Hrun; subst. exists a, held. split; [lia | assumption].
    + destruct (retry_loop body n (S a) h) as [[ok l] ev] eqn:Hrest.
      inversion Hrun; subst.
      destruct (IH _ _ _ _ Hrest) as (k & h' & Hk & Hk').
      exists k, h'. split; [lia | assumption].
    + destruct (retry_loop body n (S a) h) as [[ok l] ev] eqn:Hrest.
      inversion Hrun; subst.
      destruct (IH _ _ _ _ Hrest) as (k & h' & Hk & Hk').
      exists k, h'. split; [lia | assumption].
Qed.

(** Failure leaves the list as the last attempt left it. *)
Lemma retry_loop_false n a held held' evs :
  retry_loop body (S n) a held = (false, held', evs) ->
  exists h, body (a + n)%nat h = Continued held'
            \/ body (a + n)%nat h = Fell_through held'.
Proof.
  revert a held held' evs.
  induction n as [|n IH]; intros a held held' evs Hrun.
  - simpl in Hrun. rewrite Nat.add_0_r.
    destruct (body a held) eqn:Hb; inversion Hrun; subst; eauto.
  - rewrite retry_loop_S in Hrun.
    destruct (body a held) eqn:Hb.
    + discriminate.
    + destruct (retry_loop body (S n) (S a) held0) as [[ok l] ev] eqn:Hrest.
      inversion Hrun; subst.
      destruct (IH _ _ _ _ Hrest) as (h & Hh).
      exists h. replace (a + S n)%nat with (S a + n)%nat by lia. exact Hh.
    + destruct (retry_loop body (S n) (S a) held0) as [[ok l] ev] eqn:Hrest.
      inversion Hrun; subst.
      destruct (IH _ _ _ _ Hrest) as (h & Hh).
      exists h. replace (a + S n)%nat with (S a + n)%nat by lia. exact Hh.
Qed.

Lemma backoff_requests a : requests_of (backoff a) = [].
Proof. unfold backoff. destruct (a <? max_retries - 1)%nat; reflexivity. Qed.

(** One request per attempt, never more than the iterations left. *)
Lemma retry_loop_requests n a held :
  (length (requests_of (retry_loop body n a held).2) <= n)%nat.
Proof.
  revert a held. induction n as [|n IH]; intros a held.
  - simpl. lia.
  - rewrite retry_loop_S.
    destruct (body a held) as [h|h|h] eqn:Hb.
    + simpl. lia.
    + specialize (IH (S a) h).
      destruct (retry_loop body n (S a) h) as [[ok l] ev].
      cbn in *. lia.
    + specialize (IH (S a) h).
      destruct (retry_loop body n (S a) h) as [[ok l] ev].
      cbn [snd] in *.
      change (requests_of (Request a :: backoff a ++ ev))
        with (a :: requests_of (backoff a ++ ev)).
      unfold requests_of in *. rewrite omap_app.
      fold (requests_of (backoff a)). rewrite backoff_requests.
      simpl. lia.
Qed.

(** When every attempt ends in a caught exception, the waits are those of
    the exponential backoff: one second, then two, none after the third. *)
Lemma retry_loop_backoff held :
  (forall k h, exists h', body k h = Fell_through h') ->
  (retry_loop body max_retries 0 held).2
  = [Request 0; Sleep 1; Request 1; Sleep 2; Request 2]
    /\ (retry_loop body max_retries 0 held).1.1 = false.
Proof.
  intros Hall. unfold max_retries. simpl.
  destruct (Hall 0%nat held) as [h0 E0]. rewrite E0.
  destruct (Hall 1%nat h0) as [h1 E1]. rewrite E1.
  destruct (Hall 2%nat h1) as [h2 E2]. rewrite E2.
  simpl. split; reflexivity.
Qed.

(** Whatever the attempts do, the waits of a run are taken, in order, from
    one second and two seconds. *)
Lemma retry_loop_sleeps held :
  sublist (sleeps_of (retry_loop body max_retries 0 held).2) [1; 2].
Proof.
  unfold max_retries.
  assert (Hsub : forall l, l = [] \/ l = [1] \/ l = [2] \/ l = [1; 2] ->
                           sublist l [1; 2]).
  { intros l [-> | [-> | [-> | ->]]].
    - apply sublist_cons, sublist_cons, sublist_nil.
    - apply sublist_skip, sublist_cons, sublist_nil.
    - apply sublist_cons, sublist_skip, sublist_nil.
    - apply sublist_skip, sublist_skip, sublist_nil. }
  apply Hsub. simpl.
  destruct (body 0%nat held) as [h0|h0|h0]; [cbn; auto | |];
    (destruct (body 1%nat h0) as [h1|h1|h1]; [cbn; auto | |];
     (destruct (body 2%nat h1) as [h2|h2|h2]; cbn; auto)).
Qed.

(** When the attempts before attempt [k] do not return and attempt [k]
    does, the loop stops there: the list is the one attempt [k] leaves, and
    the requests are those of attempts up to [k]. *)
Lemma retry_loop_first_return n a k held l :
  (k < n)%nat ->
  (forall j h l', (a <= j < a + k)%nat -> body j h <> Returned l') ->
  (forall h, body (a + k)%nat h = Returned l) ->
  exists evs,
    retry_loop body n a held = (true, l, evs)
    /\ requests_of evs = seq a (S k).
Proof.
  revert n a held.
  induction k as [|k IH]; intros n a held Hk Hbefore Hret.
  - destruct n as [|n]; [lia|]. rewrite retry_loop_S.
    rewrite Nat.add_0_r in Hret. rewrite Hret.
    exists [Request a; SaveCache]. split; reflexivity.
  - destruct n as [|n]; [lia|]. rewrite retry_loop_S.
    assert (Hrest : forall h, exists evs,
               retry_loop body n (S a) h = (true, l, evs)
               /\ requests_of evs = seq (S a) (S k)).
    { intros h. apply IH; [lia | |].
      - intros j h' l' Hj. apply Hbefore. lia.
      - intros h'. replace (S a + k)%nat with (a + S k)%nat by lia.
        apply Hret. }
    destruct (body a held) as [h|h|h] eqn:Hb.
    + exfalso. apply (Hbefore a held h); [lia | assumption].
    + destruct (Hrest h) as (evs & -> & Hreq).
      exists (Request a :: evs). split; [reflexivity|].
      change (requests_of (Request a :: evs)) with (a :: requests_of evs).
      rewrite Hreq. reflexivity.
    + destruct (Hrest h) as (evs & -> & Hreq).
      exists (Request a :: backoff a ++ evs). split; [reflexivity|].
      change (requests_of (Request a :: backoff a ++ evs))
        with (a :: requests_of (backoff a ++ evs)).
      unfold requests_of in *. rewrite omap_app.
      fold (requests_of (backoff a)). rewrite backoff_requests.
      simpl. rewrite Hreq. reflexivity.
Qed.

End RetryLoop.

(** A fetcher that fails has run the loop: nothing usable was held. *)
Lemma fetch_false body force held held' evs :
  fetch body force held = (false, held', evs) ->
  retry_loop body max_retries 0 held = (false, held', evs)
  /\ (force = false -> held = []).
Proof.
  unfold fetch. destruct force; simpl.
  - intros Hrun. split; [assumption | discriminate].
  - destruct held as [|c held]; simpl.
    + intros Hrun. split; [assumption | reflexivity].
    + discriminate.
Qed.

Lemma fetch_issues_at_most_three body force held :
  (length (requests_of (fetch body force held).2) <= 3)%nat.
Proof.
  unfold fetch. destruct (negb force && truthy held).
  - simpl. lia.
  - apply (retry_loop_requests body max_retries).
Qed.

Lemma fetch_first_return body force held k l :
  negb force && truthy held = false ->
  (k < 3)%nat ->
  (forall j h l', (j < k)%nat -> body j h <> Returned l') ->
  (forall h, body k h = Returned l) ->
  exists evs,
    fetch body force held = (true, l, evs)
    /\ requests_of evs = seq 0 (S k).
Proof.
  intros Hfetch Hk Hbefore Hret. unfold fetch. rewrite Hfetch.
  apply (retry_loop_first_return body max_retries 0 k held l).
  - exact Hk.
  - intros j h l' Hj. apply Hbefore. lia.
  - exact Hret.
Qed.

(** *** The fetchers *)

Section Fetchers.
Context `{PyLib}.

Lemma cf_attempt_failure_list replies k h held' :
  cf_attempt replies k h = Continued held'
  \/ cf_attempt replies k h = Fell_through held' ->
  cf_raises_midway (replies k) = false ->
  held' = [].
Proof.
  unfold cf_attempt, cf_raises_midway.
  destruct (replies k) as [e | status result].
  - intros [Hc | Hf] _; congruence.
  - destruct (bool_decide (status = Some "OK")); simpl.
    + destruct result as [result|]; [| intros [Hc | Hf] _; congruence].
      destruct (cf_collect result []) as [l [e|]].
      * intros [Hc | Hf] Hmid; [discriminate|].
        destruct l; [congruence | discriminate].
      * intros [Hc | Hf] _; discriminate.
    + intros [Hc | Hf] _; congruence.
Qed.

Lemma nc_attempt_failure_list replies k h held' :
  nc_attempt replies k h = Continued held'
  \/ nc_attempt replies k h = Fell_through held' ->
  nc_raises_midway (replies k) = false ->
  held' = [].
Proof.
  unfold nc_attempt, nc_raises_midway.
  destruct (replies k) as [ts [e | msg code data]].
  - intros [Hc | Hf] _; congruence.
  - destruct (bool_decide (msg = Some "OK")),
             (bool_decide (code = Some 0)); simpl;
      try (intros [Hc | Hf] _; congruence).
    destruct (nc_collect ts (default [] data) []) as [l [e|]].
    + intros [Hc | Hf] Hmid; [discriminate|].
      destruct l; [congruence | discriminate].
    + intros [Hc | Hf] _; discriminate.
Qed.

Lemma atc_attempt_failure_list replies k h held' :
  atc_attempt replies k h = Continued held'
  \/ atc_attempt replies k h = Fell_through held' ->
  held' = [].
Proof.
  unfold atc_attempt.
  destruct (replies k) as [e | | | cells];
    try (intros [Hc | Hf]; congruence).
  destruct (length cells <? 10)%nat; [intros [Hc | Hf]; congruence|].
  destruct (atc_rows cells _ []) as [e | data];
    [intros [Hc | Hf]; congruence|].
  destruct (truthy data); intros [Hc | Hf]; congruence.
Qed.

Lemma cleared_list_facts (force : bool) (held held' : list ContestInfo) :
  held' = [] -> (force = false -> held = []) ->
  held' = [] /\ (held' = held <-> held = []) /\ (force = false -> held' = held).
Proof.
  intros -> Hforce. split; [reflexivity|]. split.
  - split; intros; subst; auto.
  - intros Hf. rewrite (Hforce Hf). reflexivity.
Qed.

(** C1 (as the code has it): every attempt starts by clearing the source's
    list, so a failed fetch leaves the list empty, provided its last attempt
    did not raise in the middle of the record loop (which the AtCoder fetcher
    cannot do). The list is thus unchanged exactly when it was empty before
    the call, as it always is when [force_refresh] is false. *)
Theorem failed_fetch_leaves_list_empty :
  (forall (replies : nat -> cf_reply) force held held' evs,
      get_data_cf replies force held = (false, held', evs) ->
      cf_raises_midway (replies 2%nat) = false ->
      held' = [] /\ (held' = held <-> held = [])
      /\ (force = false -> held' = held))
  /\ (forall (replies : nat -> Z * nc_reply) force held held' evs,
      get_data_nc replies force held = (false, held', evs) ->
      nc_raises_midway (replies 2%nat) = false ->
      held' = [] /\ (held' = held <-> held = [])
      /\ (force = false -> held' = held))
  /\ (forall (replies : nat -> atc_reply) force held held' evs,
      get_data_atc replies force held = (false, held', evs) ->
      held' = [] /\ (held' = held <-> held = [])
      /\ (force = false -> held' = held)).
Proof.
  repeat split_and; intros replies force held held' evs Hrun;
    [intros Hmid | intros Hmid |];
    apply fetch_false in Hrun; destruct Hrun as [Hloop Hforce];
    apply retry_loop_false in Hloop; destruct Hloop as [h Hlast];
    apply cleared_list_facts; auto.
  - eapply cf_attempt_failure_list; eauto.
  - eapply nc_attempt_failure_list; eauto.
  - eapply atc_attempt_failure_list; eauto.
Qed.

Lemma cf_reply_does_not_return replies j h l' :
  cf_reply_returns (replies j) = false -> cf_attempt replies j h <> Returned l'.
Proof.
  unfold cf_reply_returns, cf_attempt.
  destruct (replies j) as [e | status [result|]]; intros Hret; try discriminate.
  - destruct (bool_decide (status = Some "OK")); simpl in *; [|discriminate].
    destruct (cf_collect result []) as [l [e|]]; simpl in *; discriminate.
  - destruct (bool_decide (status = Some "OK")); discriminate.
Qed.

Lemma nc_reply_does_not_return replies j h l' :
  nc_reply_returns (replies j) = false -> nc_attempt replies j h <> Returned l'.
Proof.
  unfold nc_reply_returns, nc_attempt.
  destruct (replies j) as [ts [e | msg code data]]; intros Hret;
    try discriminate.
  destruct (bool_decide (msg = Some "OK")),
           (bool_decide (code = Some 0)); simpl in *; try discriminate.
  destruct (nc_collect ts (default [] data) []) as [l [e|]]; simpl in *;
    discriminate.
Qed.

Lemma atc_rows_keeps_records cells starts acc :
  acc <> [] -> atc_rows cells starts acc <> Return [].
Proof.
  revert acc. induction starts as [|i starts IH]; intros acc Hacc; simpl.
  - congruence.
  - destruct (atc_row cells i) as [e | c].
    + destruct (atc_row_catches e); [apply IH; assumption | discriminate].
    + apply IH. destruct acc; discriminate.
Qed.

Lemma atc_rows_nil_raised cells starts :
  atc_rows cells starts [] = Return [] ->
  forall i, i ∈ starts -> exists e, atc_row cells i = Raise e.
Proof.
  induction starts as [|i0 starts IH]; intros Hrows i Hin.
  - inversion Hin.
  - simpl in Hrows. destruct (atc_row cells i0) as [e | c] eqn:Hrow.
    + destruct (atc_row_catches e); [|discriminate].
      apply elem_of_cons in Hin. destruct Hin as [-> | Hin]; eauto.
    + exfalso. revert Hrows. apply atc_rows_keeps_records. discriminate.
Qed.

Lemma atc_rows_raise cells starts acc e :
  atc_rows cells starts acc = Raise e ->
  exists i e', i ∈ starts /\ atc_row cells i = Raise e'.
Proof.
  revert acc. induction starts as [|i0 starts IH]; intros acc Hrows; simpl in *.
  - discriminate.
  - destruct (atc_row cells i0) as [e0 | c] eqn:Hrow.
    + exists i0, e0. split; [left | assumption].
    + destruct (IH _ Hrows) as (i & e' & Hin & Hi).
      exists i, e'. split; [right; assumption | assumption].
Qed.

Lemma atc_attempt_outcome replies k h :
  match atc_attempt replies k h with
  | Returned l => l <> []
  | Continued l | Fell_through l => l = [] /\ atc_step_failed (replies k)
  end.
Proof.
  unfold atc_attempt, atc_step_failed.
  destruct (replies k) as [e | | | cells]; try (split; [reflexivity | exact I]).
  destruct (Nat.ltb_spec (length cells) 10) as [Hshort | Hlong].
  - split; [reflexivity | left; assumption].
  - replace (length cells `min` 10)%nat with 10%nat by lia.
    change (py_range 10 5) with [0; 5]%nat.
    destruct (atc_rows cells [0; 5]%nat []) as [e | data] eqn:Hrows.
    + split; [reflexivity|]. right.
      destruct (atc_rows_raise _ _ _ _ Hrows) as (i & e' & Hin & Hi).
      exists i, e'. split; [|assumption].
      apply elem_of_cons in Hin. destruct Hin as [-> | Hin]; [auto|].
      apply list_elem_of_singleton in Hin. auto.
    + destruct data as [|c data]; simpl.
      * split; [reflexivity|]. right.
        destruct (atc_rows_nil_raised _ _ Hrows 0%nat) as [e He]; [left|].
        exists 0%nat, e. auto.
      * discriminate.
Qed.

(** C3: for Codeforces and Nowcoder, an attempt (the first, or one reached
    after attempts that did not return) whose request and parse go through
    with no record is a success: [True] is returned with an empty list and no
    further attempt is made. For AtCoder there is no such attempt: one that
    ends without a record always met an error or a failed requirement, and
    one that returns holds a record. *)
Theorem zero_record_attempt_succeeds :
  (forall (replies : nat -> cf_reply) force held k result,
      negb force && truthy held = false ->
      (k < 3)%nat ->
      (forall j, (j < k)%nat -> cf_reply_returns (replies j) = false) ->
      replies k = CfJson (Some "OK") (Some result) ->
      cf_collect result [] = ([], None) ->
      exists evs,
        get_data_cf replies force held = (true, [], evs)
        /\ requests_of evs = seq 0 (S k))
  /\ (forall (replies : nat -> Z * nc_reply) force held k ts data,
      negb force && truthy held = false ->
      (k < 3)%nat ->
      (forall j, (j < k)%nat -> nc_reply_returns (replies j) = false) ->
      replies k = (ts, NcJson (Some "OK") (Some 0) data) ->
      nc_collect ts (default [] data) [] = ([], None) ->
      exists evs,
        get_data_nc replies force held = (true, [], evs)
        /\ requests_of evs = seq 0 (S k))
  /\ (forall (replies : nat -> atc_reply) k h,
      match atc_attempt replies k h with
      | Returned l => l <> []
      | Continued l | Fell_through l => l = [] /\ atc_step_failed (replies k)
      end).
Proof.
  repeat split_and.
  - intros replies force held k result Hfetch Hk Hbefore Hreply Hparse.
    apply fetch_first_return; try assumption.
    + intros j h l' Hj. apply cf_reply_does_not_return. auto.
    + intros h. unfold cf_attempt. rewrite Hreply. simpl.
      rewrite Hparse. reflexivity.
  - intros replies force held k ts data Hfetch Hk Hbefore Hreply Hparse.
    apply fetch_first_return; try assumption.
    + intros j h l' Hj. apply nc_reply_does_not_return. auto.
    + intros h. unfold nc_attempt. rewrite Hreply. simpl.
      rewrite Hparse. reflexivity.
  - apply atc_attempt_outcome.
Qed.

(** C6: three requests are the most a fetch issues and a caught exception is
    followed by the backoff wait, but an attempt that the API answers with a
    status other than ["OK"] ends in [continue], which skips the wait: three
    such answers give three requests with no sleep in between, where three
    time-outs give the waits of 1 and 2 seconds. *)
Theorem rejected_status_skips_backoff :
  get_data_cf (fun _ => CfJson (Some "FAILED") None) true []
  = (false, [], [Request 0; Request 1; Request 2])
  /\ get_data_cf (fun _ => CfError TimeoutException) true []
     = (false, [], [Request 0; Sleep 1; Request 1; Sleep 2; Request 2]).
Proof. split; reflexivity. Qed.

Lemma cf_collect_complete result held :
  Forall complete result ->
  Forall in_time_range (upcoming_prefix result) ->
  cf_collect result held
  = ((held ++ omap cf_info (upcoming_prefix result))%list, None).
Proof.
  intros Hall. revert held.
  induction Hall as [|c result Hc Hall IH]; intros held Hrange; simpl.
  - rewrite app_nil_r. reflexivity.
  - destruct Hc as ([p Hp] & [n Hn] & [t Ht] & [i Hi]).
    simpl in Hrange. unfold is_before in *. rewrite Hp in *.
    destruct (String.eqb_spec p "BEFORE") as [-> | Hne].
    + rewrite bool_decide_eq_true_2 in * by reflexivity. simpl.
      inversion Hrange as [|c' l' Hc' Hrest]; subst.
      destruct (Hc' t Ht) as [s Hs].
      rewrite Hn, Ht, Hs, Hi. rewrite (IH _ Hrest).
      unfold cf_info at 2. rewrite Hn, Ht. simpl. rewrite Hs. simpl.
      rewrite Hi. simpl. rewrite <- app_assoc. reflexivity.
    + rewrite bool_decide_eq_false_2 by congruence. simpl.
      rewrite app_nil_r. reflexivity.
Qed.

Lemma omap_cf_info_length result :
  Forall complete result ->
  Forall in_time_range (upcoming_prefix result) ->
  length (omap cf_info (upcoming_prefix result))
  = length (upcoming_prefix result).
Proof.
  induction 1 as [|c result Hc Hall IH]; simpl; [reflexivity|].
  destruct (is_before c); simpl; [|reflexivity].
  intros Hrange. inversion Hrange as [|c' l' Hc' Hrest]; subst.
  destruct Hc as (_ & [n Hn] & [t Ht] & [i Hi]).
  destruct (Hc' t Ht) as [s Hs].
  unfold cf_info at 1. rewrite Hn, Ht. simpl. rewrite Hs. simpl.
  rewrite Hi. simpl. f_equal. apply IH. assumption.
Qed.

(** C7: a Codeforces attempt that returns (the first, or one reached after
    attempts that did not return) leaves exactly the contests in front of
    the first one whose phase is not ["BEFORE"], in reverse order, whatever
    was held or appended before it; a feed with phases ["BEFORE"],
    ["BEFORE"], ["CODING"] leaves the first two contests, the second one
    first. The contests carry the keys of the API and start times that can
    be printed. *)
Theorem cf_keeps_reversed_upcoming_prefix
    (replies : nat -> cf_reply) (force : bool) (held : list ContestInfo)
    (k : nat) (result : list cf_contest) :
  negb force && truthy held = false ->
  (k < 3)%nat ->
  (forall j, (j < k)%nat -> cf_reply_returns (replies j) = false) ->
  replies k = CfJson (Some "OK") (Some result) ->
  Forall complete result ->
  Forall in_time_range (upcoming_prefix result) ->
  exists evs,
    get_data_cf replies force held
    = (true, rev (omap cf_info (upcoming_prefix result)), evs)
    /\ requests_of evs = seq 0 (S k)
    /\ length (omap cf_info (upcoming_prefix result))
       = length (upcoming_prefix result)
    /\ (forall c1 c2 c3 r1 r2,
          result = [c1; c2; c3] ->
          phase c1 = Some "BEFORE" -> phase c2 = Some "BEFORE" ->
          phase c3 = Some "CODING" ->
          cf_info c1 = Some r1 -> cf_info c2 = Some r2 ->
          (get_data_cf replies force held).1.2 = [r2; r1]).
Proof.
  intros Hfetch Hk Hbefore Hreply Hall Hrange.
  destruct (fetch_first_return (cf_attempt replies) force held k
              (rev (omap cf_info (upcoming_prefix result))))
    as (evs & Hrun & Hreq); try assumption.
  { intros j h l' Hj. apply cf_reply_does_not_return. auto. }
  { intros h. unfold cf_attempt. rewrite Hreply. simpl.
    rewrite (cf_collect_complete result [] Hall Hrange). reflexivity. }
  exists evs. unfold get_data_cf. rewrite Hrun. repeat split_and.
  - reflexivity.
  - assumption.
  - apply omap_cf_info_length; assumption.
  - intros c1 c2 c3 r1 r2 -> Hp1 Hp2 Hp3 Hr1 Hr2. simpl.
    unfold is_before. rewrite Hp1, Hp2, Hp3. simpl.
    rewrite Hr1, Hr2. reflexivity.
Qed.

Lemma atc_attempt_returns_two replies k h held' :
  atc_attempt replies k h = Returned held' -> (length held' <= 2)%nat.
Proof.
  unfold atc_attempt.
  destruct (replies k) as [e | | | cells]; try discriminate.
  destruct (length cells <? 10)%nat; [discriminate|].
  destruct (atc_rows cells _ []) as [e | data]; [discriminate|].
  destruct (truthy data); [|discriminate].
  intros Hret. inversion Hret; subst. rewrite length_take. lia.
Qed.

(** C8: whenever the AtCoder fetcher returns success, the list it holds has
    at most two contests: a fetch keeps [contests_data[:2]], however many
    cells the page has, and the answer given without fetching is a list that
    was already that short. *)
Theorem atc_holds_at_most_two
    (replies : nat -> atc_reply) (force : bool)
    (held held' : list ContestInfo) (evs : list event) :
  get_data_atc replies force held = (true, held', evs) ->
  force = true \/ (length held <= 2)%nat ->
  (length held' <= 2)%nat.
Proof.
  unfold get_data_atc, fetch. intros Hrun Hpre.
  destruct (negb force && truthy held) eqn:Hcached.
  - inversion Hrun; subst.
    destruct Hpre as [-> | Hlen]; [discriminate | assumption].
  - apply retry_loop_true in Hrun. destruct Hrun as (k & h & _ & Hret).
    eapply atc_attempt_returns_two. exact Hret.
Qed.

(** The bound is kept by every call, successful or not. *)
Lemma atc_length_invariant replies force held :
  (length held <= 2)%nat ->
  (length (get_data_atc replies force held).1.2 <= 2)%nat.
Proof.
  intros Hlen. unfold get_data_atc, fetch.
  destruct (negb force && truthy held); [exact Hlen|].
  destruct (retry_loop (atc_attempt replies) max_retries 0 held)
    as [[[|] held'] evs] eqn:Hrun; simpl.
  - apply retry_loop_true in Hrun. destruct Hrun as (k & h & _ & Hret).
    eapply atc_attempt_returns_two. exact Hret.
  - apply retry_loop_false in Hrun. destruct Hrun as [h Hlast].
    rewrite (atc_attempt_failure_list replies _ h held' Hlast). simpl. lia.
Qed.

End Fetchers.

(** *** Today's contests *)

Section Today.
Context `{PyLib}.

Lemma found_message_not_no_data (rest : string) :
  found_heading ++ rest <> no_data_message.
Proof. unfold found_heading, no_data_message. simpl. discriminate. Qed.

Lemma no_contest_not_no_data : no_contest_message <> no_data_message.
Proof. unfold no_contest_message, no_data_message. discriminate. Qed.

(** C2 (as the code has it): the today query answers with the "no data"
    message exactly when the three lists held after its refresh are all
    empty. No record is kept of whether a source ever succeeded. *)
Theorem no_data_iff_held_lists_empty
    (net : network) (today : Z) (m : ContestDataManager) :
  (get_today_info net today m).1 = no_data_message
  <-> cf (get_today_info net today m).2 = []
      /\ nc (get_today_info net today m).2 = []
      /\ atc (get_today_info net today m).2 = [].
Proof.
  unfold get_today_info. cbn [fst snd].
  generalize (refresh_all net m). clear m. intros m.
  unfold today_message.
  destruct (truthy (cf m) || truthy (nc m) || truthy (atc m)) eqn:Hany; simpl.
  - split.
    + intros Hmsg. exfalso. revert Hmsg.
      match goal with
      | |- context [if ?b then _ else _] => destruct b
      end.
      * apply no_contest_not_no_data.
      * apply found_message_not_no_data.
    + intros (Hcf & Hnc & Hatc). rewrite Hcf, Hnc, Hatc in Hany. discriminate.
  - split; [intros _ | reflexivity].
    apply Bool.orb_false_elim in Hany. destruct Hany as [Hany Hatc].
    apply Bool.orb_false_elim in Hany. destruct Hany as [Hcf Hnc].
    rewrite <- !truthy_false. auto.
Qed.

End Today.

(** *** More on the retry loop and the fetchers *)

Section RetryLoopMore.
Variable body : nat -> list ContestInfo -> attempt_result.

Lemma retry_loop_request_numbers n a held :
  exists k, (k <= n)%nat
            /\ requests_of (retry_loop body n a held).2 = seq a k.
Proof.
  revert a held. induction n as [|n IH]; intros a held.
  - exists 0%nat. split; [lia | reflexivity].
  - rewrite retry_loop_S.
    destruct (body a held) as [h|h|h].
    + exists 1%nat. split; [lia | reflexivity].
    + destruct (IH (S a) h) as (k & Hk & Hreq).
      destruct (retry_loop body n (S a) h) as [[ok l] ev].
      exists (S k). split; [lia|]. cbn in *. rewrite Hreq. reflexivity.
    + destruct (IH (S a) h) as (k & Hk & Hreq).
      destruct (retry_loop body n (S a) h) as [[ok l] ev].
      exists (S k). split; [lia|]. cbn [snd] in *.
      change (requests_of (Request a :: backoff a ++ ev))
        with (a :: requests_of (backoff a ++ ev)).
      unfold requests_of in *. rewrite omap_app.
      fold (requests_of (backoff a)). rewrite backoff_requests.
      simpl. rewrite Hreq. reflexivity.
Qed.

Lemma backoff_no_save a : SaveCache ∉ backoff a.
Proof.
  unfold backoff. destruct (a <? max_retries - 1)%nat.
  - intros Hin. apply list_elem_of_singleton in Hin. discriminate.
  - apply not_elem_of_nil.
Qed.

(** The cache is written once, at the end of a run that succeeds, and not
    at all by a run that fails. *)
Lemma retry_loop_saves n a held :
  match retry_loop body n a held with
  | (true, _, evs) =>
      exists pre k, evs = (pre ++ [Request k; SaveCache])%list /\ SaveCache ∉ pre
  | (false, _, evs) => SaveCache ∉ evs
  end.
Proof.
  revert a held. induction n as [|n IH]; intros a held.
  - simpl. apply not_elem_of_nil.
  - rewrite retry_loop_S.
    destruct (body a held) as [h|h|h].
    + exists [], a. split; [reflexivity | apply not_elem_of_nil].
    + specialize (IH (S a) h).
      destruct (retry_loop body n (S a) h) as [[[|] l] ev].
      * destruct IH as (pre & k & -> & Hpre).
        exists (Request a :: pre), k. split; [reflexivity|].
        rewrite not_elem_of_cons. split; [discriminate | assumption].
      * rewrite not_elem_of_cons. split; [discriminate | assumption].
    + specialize (IH (S a) h). pose proof (backoff_no_save a) as Hb.
      destruct (retry_loop body n (S a) h) as [[[|] l] ev].
      * destruct IH as (pre & k & -> & Hpre).
        exists (Request a :: backoff a ++ pre), k.
        split; [simpl; rewrite <- app_assoc; reflexivity|].
        rewrite not_elem_of_cons, not_elem_of_app.
        split; [discriminate | split; assumption].
      * rewrite not_elem_of_cons, not_elem_of_app.
        split; [discriminate | split; assumption].
Qed.

End RetryLoopMore.

Lemma retry_loop_ext body body' n a held :
  (forall k h, body k h = body' k h) ->
  retry_loop body n a held = retry_loop body' n a held.
Proof.
  intros Hext. revert a held. induction n as [|n IH]; intros a held.
  - reflexivity.
  - rewrite !retry_loop_S. rewrite <- Hext.
    destruct (body a held) as [h|h|h]; [reflexivity | |];
      rewrite IH; reflexivity.
Qed.

Lemma fetch_request_numbers body force held :
  exists k, (k <= 3)%nat /\ requests_of (fetch body force held).2 = seq 0 k.
Proof.
  unfold fetch. destruct (negb force && truthy held).
  - exists 0%nat. split; [lia | reflexivity].
  - apply (retry_loop_request_numbers body max_retries).
Qed.

Lemma fetch_saves body force held :
  match fetch body force held with
  | (true, _, evs) =>
      evs = [] \/
      exists pre k, evs = (pre ++ [Request k; SaveCache])%list /\ SaveCache ∉ pre
  | (false, _, evs) => SaveCache ∉ evs
  end.
Proof.
  unfold fetch. destruct (negb force && truthy held).
  - left. reflexivity.
  - pose proof (retry_loop_saves body max_retries 0 held) as Hs.
    destruct (retry_loop body max_retries 0 held) as [[[|] l] ev]; auto.
Qed.

Lemma fetch_sleeps body force held :
  sublist (sleeps_of (fetch body force held).2) [1; 2].
Proof.
  unfold fetch. destruct (negb force && truthy held).
  - simpl. apply sublist_nil_l.
  - apply retry_loop_sleeps.
Qed.

Lemma fetch_again body force held held' evs :
  fetch body force held = (true, held', evs) ->
  held' <> [] ->
  fetch body false held' = (true, held', []).
Proof.
  intros _ Hne. unfold fetch. destruct held'; [congruence | reflexivity].
Qed.

Lemma fetch_save_iff body force held :
  (SaveCache ∈ (fetch body force held).2
   <-> (fetch body force held).1.1 = true /\ (fetch body force held).2 <> [])
  /\ (SaveCache ∈ (fetch body force held).2 ->
      exists pre k,
        (fetch body force held).2 = (pre ++ [Request k; SaveCache])%list
        /\ SaveCache ∉ pre).
Proof.
  pose proof (fetch_saves body force held) as Hs.
  destruct (fetch body force held) as [[[|] l] evs]; simpl.
  - destruct Hs as [-> | (pre & k & -> & Hpre)].
    + split.
      * split; [intros Hin; inversion Hin | intros [_ Hne]; congruence].
      * intros Hin. inversion Hin.
    + split.
      * split.
        -- intros _. split; [reflexivity|]. destruct pre; discriminate.
        -- intros _. rewrite elem_of_app. right.
           apply list_elem_of_further, list_elem_of_here.
      * intros _. exists pre, k. auto.
  - split.
    + split; [intros Hin; contradiction | intros [Hf _]; discriminate].
    + intros Hin. contradiction.
Qed.

Section MoreFetchers.
Context `{PyLib}.

(** Requests are numbered from 0 without a gap, three at most. *)
Theorem fetchers_number_their_requests :
  (forall (replies : nat -> cf_reply) force held,
      exists k, (k <= 3)%nat
        /\ requests_of (get_data_cf replies force held).2 = seq 0 k)
  /\ (forall (replies : nat -> Z * nc_reply) force held,
      exists k, (k <= 3)%nat
        /\ requests_of (get_data_nc replies force held).2 = seq 0 k)
  /\ (forall (replies : nat -> atc_reply) force held,
      exists k, (k <= 3)%nat
        /\ requests_of (get_data_atc replies force held).2 = seq 0 k).
Proof. repeat split_and; intros; apply fetch_request_numbers. Qed.

(** The cache is saved only by a call that ends in a successful attempt,
    once, as the last thing the call does. *)
Theorem fetchers_save_on_success_only :
  (forall (replies : nat -> cf_reply) force held,
      let r := get_data_cf replies force held in
      (SaveCache ∈ r.2 <-> r.1.1 = true /\ r.2 <> [])
      /\ (SaveCache ∈ r.2 ->
          exists pre k, r.2 = (pre ++ [Request k; SaveCache])%list
                        /\ SaveCache ∉ pre))
  /\ (forall (replies : nat -> Z * nc_reply) force held,
      let r := get_data_nc replies force held in
      (SaveCache ∈ r.2 <-> r.1.1 = true /\ r.2 <> [])
      /\ (SaveCache ∈ r.2 ->
          exists pre k, r.2 = (pre ++ [Request k; SaveCache])%list
                        /\ SaveCache ∉ pre))
  /\ (forall (replies : nat -> atc_reply) force held,
      let r := get_data_atc replies force held in
      (SaveCache ∈ r.2 <-> r.1.1 = true /\ r.2 <> [])
      /\ (SaveCache ∈ r.2 ->
          exists pre k, r.2 = (pre ++ [Request k; SaveCache])%list
                        /\ SaveCache ∉ pre)).
Proof. repeat split_and; intros; apply fetch_save_iff. Qed.

(** Whatever the replies, a call waits at most one second and then two
    seconds, in this order, and never after its third attempt. *)
Theorem fetchers_wait_one_then_two :
  (forall (replies : nat -> cf_reply) force held,
      sublist (sleeps_of (get_data_cf replies force held).2) [1; 2])
  /\ (forall (replies : nat -> Z * nc_reply) force held,
      sublist (sleeps_of (get_data_nc replies force held).2) [1; 2])
  /\ (forall (replies : nat -> atc_reply) force held,
      sublist (sleeps_of (get_data_atc replies force held).2) [1; 2]).
Proof. repeat split_and; intros; apply fetch_sleeps. Qed.

Lemma nc_collect_positive (ts : Z) (data : list nc_contest) held :
  0 < ts ->
  Forall (nc_in_time_range ts) data ->
  nc_collect ts data held = ((held ++ omap (nc_upcoming ts) data)%list, None).
Proof.
  intros Hts Hrange. revert held.
  induction Hrange as [|c data Hc Hrange IH]; intros held.
  - simpl. rewrite app_nil_r. reflexivity.
  - assert (Hcons : omap (nc_upcoming ts) (c :: data)
                    = match nc_upcoming ts c with
                      | Some r => r :: omap (nc_upcoming ts) data
                      | None => omap (nc_upcoming ts) data
                      end) by reflexivity.
    rewrite Hcons. clear Hcons.
    cbn [nc_collect]. unfold nc_upcoming at 1. unfold nc_in_time_range in Hc.
    destruct (startTime c) as [t|]; cbn [mbind option_bind].
    + change (default 0 (Some t)) with t.
      destruct (Z.geb_spec t ts) as [Hge | Hlt].
      * destruct (Hc t eq_refl ltac:(lia)) as [s Hs]. rewrite Hs.
        cbn [mbind option_bind]. rewrite IH, <- app_assoc. reflexivity.
      * apply IH.
    + change (default 0 (@None Z)) with 0.
      replace (0 >=? ts) with false
        by (symmetry; rewrite Z.geb_leb; apply Z.leb_gt; lia).
      apply IH.
Qed.

Lemma nc_upcoming_length (ts : Z) (data : list nc_contest) :
  Forall (nc_in_time_range ts) data ->
  length (omap (nc_upcoming ts) data)
  = length (List.filter (nc_is_upcoming ts) data).
Proof.
  induction 1 as [|c data Hc Hrange IH]; [reflexivity|].
  assert (Hcons : omap (nc_upcoming ts) (c :: data)
                  = match nc_upcoming ts c with
                    | Some r => r :: omap (nc_upcoming ts) data
                    | None => omap (nc_upcoming ts) data
                    end) by reflexivity.
  rewrite Hcons. clear Hcons. cbn [List.filter].
  unfold nc_upcoming at 1, nc_is_upcoming at 1.
  unfold nc_in_time_range in Hc.
  destruct (startTime c) as [t|]; cbn [mbind option_bind]; [|assumption].
  rewrite Z.geb_leb.
  destruct (Z.leb_spec ts t) as [Hge | Hlt]; [|assumption].
  destruct (Hc t eq_refl Hge) as [s Hs]. rewrite Hs.
  cbn [mbind option_bind length]. f_equal. assumption.
Qed.

(** With a positive clock, a Nowcoder attempt (the first, or one reached
    after attempts that did not return) whose answer passes the [msg]/[code]
    check and whose kept start times can be printed always gives a success,
    missing keys or not: the list held is the contests that start at or
    after the request's time stamp, none dropped, in the order of the
    answer, and no later attempt is made. *)
Theorem nc_keeps_upcoming_in_order
    (replies : nat -> Z * nc_reply) (force : bool) (held : list ContestInfo)
    (k : nat) (ts : Z) (data : option (list nc_contest)) :
  negb force && truthy held = false ->
  (k < 3)%nat ->
  (forall j, (j < k)%nat -> nc_reply_returns (replies j) = false) ->
  replies k = (ts, NcJson (Some "OK") (Some 0) data) ->
  0 < ts ->
  Forall (nc_in_time_range ts) (default [] data) ->
  exists evs,
    get_data_nc replies force held
    = (true, omap (nc_upcoming ts) (default [] data), evs)
    /\ requests_of evs = seq 0 (S k)
    /\ length (omap (nc_upcoming ts) (default [] data))
       = length (List.filter (nc_is_upcoming ts) (default [] data)).
Proof.
  intros Hfetch Hk Hbefore Hreply Hts Hrange.
  destruct (fetch_first_return (nc_attempt replies) force held k
              (omap (nc_upcoming ts) (default [] data)))
    as (evs & Hrun & Hreq); try assumption.
  { intros j h l' Hj. apply nc_reply_does_not_return. auto. }
  { intros h. unfold nc_attempt. rewrite Hreply. simpl.
    rewrite (nc_collect_positive ts (default [] data) [] Hts Hrange).
    reflexivity. }
  exists evs. unfold get_data_nc. rewrite Hrun. repeat split_and.
  - reflexivity.
  - assumption.
  - apply nc_upcoming_length. assumption.
Qed.

Lemma atc_row_take (cells : list atc_cell) (n i : nat) :
  (i + 1 < n)%nat -> atc_row (take n cells) i = atc_row cells i.
Proof.
  intros Hi. unfold atc_row, index.
  rewrite !lookup_take_lt by lia. reflexivity.
Qed.

Lemma atc_attempt_first_ten replies k h :
  atc_attempt (fun j => first_ten_cells (replies j)) k h
  = atc_attempt replies k h.
Proof.
  unfold atc_attempt, first_ten_cells.
  destruct (replies k) as [e | | | cells]; try reflexivity.
  destruct (Nat.ltb_spec (length cells) 10) as [Hshort | Hlong].
  - rewrite take_ge by lia.
    replace (length cells <? 10)%nat with true
      by (symmetry; apply Nat.ltb_lt; lia).
    reflexivity.
  - rewrite length_take.
    replace (10 `min` length cells)%nat with 10%nat by lia.
    replace (length cells `min` 10)%nat with 10%nat by lia.
    change (py_range 10 5) with [0; 5]%nat. simpl.
    rewrite !atc_row_take by lia. reflexivity.
Qed.

(** Only the first ten cells of the table are read: the cells behind them
    change nothing in what the call returns, holds and does. *)
Theorem atc_reads_first_ten_cells
    (replies : nat -> atc_reply) (force : bool) (held : list ContestInfo) :
  get_data_atc (fun k => first_ten_cells (replies k)) force held
  = get_data_atc replies force held.
Proof.
  unfold get_data_atc, fetch.
  destruct (negb force && truthy held); [reflexivity|].
  apply retry_loop_ext. intros k h. apply atc_attempt_first_ten.
Qed.

Lemma atc_attempt_returns_nonempty replies k h held' :
  atc_attempt replies k h = Returned held' -> held' <> [].
Proof.
  unfold atc_attempt.
  destruct (replies k) as [e | | | cells]; try discriminate.
  destruct (length cells <? 10)%nat; [discriminate|].
  destruct (atc_rows cells _ []) as [e | [|c data]]; try discriminate.
  simpl. intros Hret. inversion Hret. discriminate.
Qed.

Lemma atc_flag_truthy
    (replies : nat -> atc_reply) (force : bool) (held : list ContestInfo) :
  (get_data_atc replies force held).1.1
  = truthy (get_data_atc replies force held).1.2.
Proof.
  unfold get_data_atc, fetch.
  destruct (negb force && truthy held) eqn:Hcached.
  - simpl. apply andb_prop in Hcached. destruct Hcached as [_ ->]. reflexivity.
  - destruct (retry_loop (atc_attempt replies) max_retries 0 held)
      as [[[|] held'] evs] eqn:Hrun; simpl.
    + apply retry_loop_true in Hrun. destruct Hrun as (k & h & _ & Hret).
      apply atc_attempt_returns_nonempty in Hret.
      destruct held'; [congruence | reflexivity].
    + apply retry_loop_false in Hrun. destruct Hrun as [h Hlast].
      rewrite (atc_attempt_failure_list replies _ h held' Hlast). reflexivity.
Qed.

(** The flag returned by the AtCoder fetcher tells whether its list is
    empty afterwards: success always comes with a contest, failure with
    none. A successful Codeforces or Nowcoder fetch can hold nothing. *)
Theorem atc_flag_is_nonemptiness
    (replies : nat -> atc_reply) (force : bool) (held : list ContestInfo) :
  ((get_data_atc replies force held).1.1 = true
   <-> (get_data_atc replies force held).1.2 <> [])
  /\ ((get_data_atc replies force held).1.1 = false
      <-> (get_data_atc replies force held).1.2 = []).
Proof.
  rewrite (atc_flag_truthy replies force held).
  destruct (get_data_atc replies force held).1.2; simpl;
    repeat split; intros; congruence.
Qed.



(** A link without [href] in one of the two rows fails the whole attempt,
    whatever the other row holds; a row with no link at all is only skipped. *)
Theorem atc_link_without_href_fails_attempt
    (replies : nat -> atc_reply) (k : nat) (h : list ContestInfo)
    (cells : list atc_cell) (i : nat) (name_cell : atc_cell) (text : string) :
  replies k = AtcCells cells ->
  (10 <= length cells)%nat ->
  i = 0%nat \/ i = 5%nat ->
  cells !! (i + 1)%nat = Some name_cell ->
  anchor name_cell = Some (text, None) ->
  atc_attempt replies k h = Fell_through [].
Proof.
  intros Hreply Hlen Hi Hcell Hanchor.
  unfold atc_attempt. rewrite Hreply.
  replace (length cells <? 10)%nat with false
    by (symmetry; apply Nat.ltb_ge; lia).
  replace (length cells `min` 10)%nat with 10%nat by lia.
  change (py_range 10 5) with [0; 5]%nat.
  assert (Hrow : atc_row cells i = Raise TypeError).
  { unfold atc_row, index. rewrite Hcell. simpl. rewrite Hanchor. reflexivity. }
  destruct Hi as [-> | ->]; simpl.
  - rewrite Hrow. reflexivity.
  - destruct (atc_row cells 0) as [e | c].
    + destruct (atc_row_catches e); [|reflexivity].
      rewrite Hrow. reflexivity.
    + rewrite Hrow. reflexivity.
Qed.

End MoreFetchers.

(** *** The queries *)

Section QueryProps.
Context `{PyLib}.

Lemma cf_found_not_error n rest : cf_heading n ++ rest <> fetch_error_message.
Proof. unfold cf_heading, fetch_error_message. simpl. discriminate. Qed.

Lemma nc_found_not_error n rest : nc_heading n ++ rest <> fetch_error_message.
Proof. unfold nc_heading, fetch_error_message. simpl. discriminate. Qed.

Lemma atc_message_not_error held :
  held <> [] -> atc_message held <> fetch_error_message.
Proof.
  destruct held as [|c0 [|c1 held]]; [congruence | |]; intros _;
    unfold atc_message, fetch_error_message; simpl; discriminate.
Qed.

Lemma atc_message_not_no_data held :
  held <> [] -> atc_message held <> atc_no_data_message.
Proof.
  destruct held as [|c0 [|c1 held]]; [congruence | |]; intros _;
    unfold atc_message, atc_no_data_message; simpl; discriminate.
Qed.

Lemma latest_three_length held :
  length (latest_three held) = (3 `min` length held)%nat.
Proof. unfold latest_three. rewrite length_fmap, length_take. reflexivity. Qed.

(** The Codeforces and Nowcoder queries answer with the error message
    exactly when the list is empty after the fetch, whether the fetch failed
    or succeeded with nothing; otherwise they show the first contests held,
    three at most, under a heading that carries their number. *)
Theorem source_query_answers :
  (forall (replies : nat -> cf_reply) held,
      let r := get_cf_info replies held in
      r.1.2 = (get_data_cf replies false held).1.2
      /\ r.2 = (get_data_cf replies false held).2
      /\ (r.1.1 = fetch_error_message <-> r.1.2 = [])
      /\ (r.1.2 <> [] ->
          r.1.1 = cf_heading (3 `min` length r.1.2)
                  ++ String.concat (nl ++ nl) (contest_lines <$> take 3 r.1.2)))
  /\ (forall (replies : nat -> Z * nc_reply) held,
      let r := get_nc_info replies held in
      r.1.2 = (get_data_nc replies false held).1.2
      /\ r.2 = (get_data_nc replies false held).2
      /\ (r.1.1 = fetch_error_message <-> r.1.2 = [])
      /\ (r.1.2 <> [] ->
          r.1.1 = nc_heading (3 `min` length r.1.2)
                  ++ String.concat (nl ++ nl) (contest_lines <$> take 3 r.1.2))).
Proof.
  split; intros replies held; cbv zeta.
  - unfold get_cf_info.
    destruct (get_data_cf replies false held) as [[ok held'] evs].
    destruct held' as [|c held']; cbn [truthy negb fst snd].
    + repeat split_and; try reflexivity; try tauto; congruence.
    + repeat split_and; try reflexivity.
      * split; [|discriminate]. intros Hmsg. exfalso.
        exact (cf_found_not_error _ _ Hmsg).
      * intros _. rewrite latest_three_length. reflexivity.
  - unfold get_nc_info.
    destruct (get_data_nc replies false held) as [[ok held'] evs].
    destruct held' as [|c held']; cbn [truthy negb fst snd].
    + repeat split_and; try reflexivity; try tauto; congruence.
    + repeat split_and; try reflexivity.
      * split; [|discriminate]. intros Hmsg. exfalso.
        exact (nc_found_not_error _ _ Hmsg).
      * intros _. rewrite latest_three_length. reflexivity.
Qed.

Lemma cf_collect_not_before result held :
  (forall c, head result = Some c ->
             exists p, phase c = Some p /\ p <> "BEFORE") ->
  cf_collect result held = (held, None).
Proof.
  destruct result as [|c rest]; [reflexivity|]. intros Hhead.
  destruct (Hhead c eq_refl) as (p & Hp & Hne). simpl. rewrite Hp.
  destruct (String.eqb_spec p "BEFORE"); [contradiction | reflexivity].
Qed.

(** When Codeforces lists no upcoming contest (an empty array, or one that
    starts with a contest in another phase), the fetch succeeds and saves
    the cache, and the query still answers with the error message. *)
Theorem cf_query_without_upcoming
    (replies : nat -> cf_reply) (result : list cf_contest) :
  replies 0%nat = CfJson (Some "OK") (Some result) ->
  (forall c, head result = Some c ->
             exists p, phase c = Some p /\ p <> "BEFORE") ->
  get_data_cf replies false [] = (true, [], [Request 0; SaveCache])
  /\ get_cf_info replies []
     = (fetch_error_message, [], [Request 0; SaveCache]).
Proof.
  intros Hreply Hhead.
  assert (Hrun : get_data_cf replies false []
                 = (true, [], [Request 0; SaveCache])).
  { unfold get_data_cf, fetch. cbn [negb andb truthy]. unfold max_retries.
    rewrite retry_loop_S. unfold cf_attempt. rewrite Hreply. simpl.
    rewrite (cf_collect_not_before result [] Hhead). reflexivity. }
  split; [exact Hrun|].
  unfold get_cf_info. rewrite Hrun. reflexivity.
Qed.

(** The AtCoder query answers with the error message exactly when the fetch
    failed, and its last branch, the "no AtCoder data" message, is never
    taken. *)
Theorem atc_query_answers
    (replies : nat -> atc_reply) (held : list ContestInfo) :
  ((get_atc_info replies held).1.1 = fetch_error_message
   <-> (get_data_atc replies false held).1.1 = false)
  /\ (get_atc_info replies held).1.1 <> atc_no_data_message.
Proof.
  unfold get_atc_info.
  pose proof (atc_flag_truthy replies false held) as Hflag.
  destruct (get_data_atc replies false held) as [[ok held'] evs].
  cbn [fst snd] in *. subst ok.
  destruct held' as [|c held']; cbn [truthy negb fst snd].
  - split; [tauto|]. unfold fetch_error_message, atc_no_data_message.
    discriminate.
  - split.
    + split; [|discriminate]. intros Hmsg. exfalso.
      eapply atc_message_not_error; [|exact Hmsg]. discriminate.
    + apply atc_message_not_no_data. discriminate.
Qed.

Lemma found_message_not_no_contest (rest : string) :
  found_heading ++ rest <> no_contest_message.
Proof. unfold found_heading, no_contest_message. simpl. discriminate. Qed.

Lemma platform_contests_nil today contests :
  platform_contests today contests = []
  <-> forall c, c ∈ contests -> strptime_date (contest_time c) <> Some today.
Proof.
  unfold platform_contests. split.
  - intros Hnil c Hin Hdate.
    apply fmap_nil_inv in Hnil.
    exact (filter_nil_not_elem_of _ _ c Hnil Hdate Hin).
  - intros Hnone. induction contests as [|c contests IH]; [reflexivity|].
    rewrite filter_cons_False.
    + apply IH. intros c' Hin. apply Hnone. right. exact Hin.
    + apply Hnone. left.
Qed.

Lemma platform_part_nil today heading contests :
  platform_part today heading contests = []
  <-> platform_contests today contests = [].
Proof.
  unfold platform_part.
  destruct (platform_contests today contests); simpl; split; congruence.
Qed.

(** The today query says "no contest today" exactly when some list holds a
    contest and no contest held is dated today (a time that does not parse
    counts as another day). *)
Theorem today_message_no_contest (today : Z) (m : ContestDataManager) :
  today_message today m = no_contest_message
  <-> ~ (cf m = [] /\ nc m = [] /\ atc m = [])
      /\ (forall c, c ∈ (cf m ++ nc m ++ atc m)%list ->
                    strptime_date (contest_time c) <> Some today).
Proof.
  unfold today_message.
  destruct (truthy (cf m) || truthy (nc m) || truthy (atc m)) eqn:Hany;
    cbn [negb].
  - assert (Hsome : ~ (cf m = [] /\ nc m = [] /\ atc m = [])).
    { intros (Hcf & Hnc & Hatc). rewrite Hcf, Hnc, Hatc in Hany. discriminate. }
    match goal with
    | |- context [truthy ?ps] => destruct ps as [|part rest] eqn:Hparts
    end; cbn [truthy negb].
    + split; [intros _ | reflexivity]. split; [exact Hsome|].
      apply app_eq_nil in Hparts. destruct Hparts as [Hcf Hrest].
      apply app_eq_nil in Hrest. destruct Hrest as [Hnc Hatc].
      pose proof (proj1 (platform_contests_nil today _)
                    (proj1 (platform_part_nil today _ _) Hcf)) as Hcf'.
      pose proof (proj1 (platform_contests_nil today _)
                    (proj1 (platform_part_nil today _ _) Hnc)) as Hnc'.
      pose proof (proj1 (platform_contests_nil today _)
                    (proj1 (platform_part_nil today _ _) Hatc)) as Hatc'.
      intros c Hin. rewrite !elem_of_app in Hin.
      destruct Hin as [Hin | [Hin | Hin]]; eauto.
    + split.
      * intros Hmsg. exfalso. exact (found_message_not_no_contest _ Hmsg).
      * intros [_ Hnone]. exfalso.
        assert (Hnil : (platform_part today "◉Codeforces比赛：" (cf m) ++
                        platform_part today "◉牛客比赛：" (nc m) ++
                        platform_part today "◉AtCoder比赛：" (atc m))%list = []).
        { rewrite !(proj2 (platform_part_nil today _ _)); [reflexivity | | |];
            apply platform_contests_nil; intros c Hin; apply Hnone;
            rewrite !elem_of_app; auto. }
        rewrite Hnil in Hparts. discriminate.
  - split.
    + intros Hmsg. exfalso. symmetry in Hmsg.
      exact (no_contest_not_no_data Hmsg).
    + intros [Hsome _]. exfalso. apply Hsome.
      apply Bool.orb_false_elim in Hany. destruct Hany as [Hany Hatc].
      apply Bool.orb_false_elim in Hany. destruct Hany as [Hcf Hnc].
      rewrite <- !truthy_false. auto.
Qed.

(** The today query never refreshes a list that holds something: such a
    list comes out as it went in, and with three of them the answer is made
    from the held lists alone. *)
Theorem today_query_keeps_held_lists
    (net : network) (today : Z) (m : ContestDataManager) :
  (cf m <> [] -> cf (get_today_info net today m).2 = cf m)
  /\ (nc m <> [] -> nc (get_today_info net today m).2 = nc m)
  /\ (atc m <> [] -> atc (get_today_info net today m).2 = atc m)
  /\ (cf m <> [] -> nc m <> [] -> atc m <> [] ->
      get_today_info net today m = (today_message today m, m)).
Proof.
  unfold get_today_info, refresh_all, get_data_cf, get_data_nc, get_data_atc,
    fetch. cbn [fst snd negb andb cf nc atc].
  destruct m as [c n a]. cbn [cf nc atc].
  repeat split_and.
  - destruct c; [congruence | reflexivity].
  - destruct n; [congruence | reflexivity].
  - destruct a; [congruence | reflexivity].
  - destruct c, n, a; try congruence. reflexivity.
Qed.

End QueryProps.

(** What [_save_cache] wrote comes back whole from [_load_cache] while the
    age the load computes, a float, is under 3600: so it does for an hour
    when both clock readings are multiples of 2^-40 (as the floats of
    [time.time()] are); from 3600 seconds on it is ignored. *)
Theorem saved_snapshot_round_trip
    (now t : Q) (m : ContestDataManager) (f : cache_file) :
  (float_lt_int (round64 (now - t)) 3600 = true ->
     exists eff,
       _load_cache now (_save_cache true t m f) = Return eff
       /\ manager_of_effect eff = Some m)
  /\ (clock_grid now /\ clock_grid t /\ (now - t < 3600)%Q ->
     exists eff,
       _load_cache now (_save_cache true t m f) = Return eff
       /\ manager_of_effect eff = Some m)
  /\ ((3600 <= now - t)%Q ->
      _load_cache now (_save_cache true t m f) = Return Keeps).
Proof.
  repeat split_and.
  - apply load_saved_snapshot.
  - intros (Hnow & Ht & Hage). apply load_saved_snapshot.
    apply age_fresh; assumption.
  - intros Hold. unfold _save_cache, snapshot.
    apply (load_cache_stale now t); [reflexivity | exact Hold].
Qed.

(** A cache object whose time stamp is not a number (missing, a string,
    [null], a boolean, ...) is never adopted once the clock is past 3601
    seconds, and the load does not raise. *)
Theorem load_cache_without_numeric_timestamp
    (now : Q) (m : gmap string json) :
  (forall n, m !! "timestamp" <> Some (JInt n)) ->
  (forall f, m !! "timestamp" <> Some (JFloat f)) ->
  (3601 <= now)%Q ->
  _load_cache now (Content (JObj m)) = Return Keeps.
Proof.
  intros Hint Hfloat Hnow. unfold _load_cache, load_cache_body. simpl.
  destruct (m !! "timestamp") as [v|] eqn:Hts; simpl.
  - destruct v as [ | b | n | x | s | l | o]; simpl; try reflexivity.
    + rewrite age_not_fresh by (destruct b; lra). reflexivity.
    + exfalso. apply (Hint n). reflexivity.
    + exfalso. apply (Hfloat x). reflexivity.
  - change (float_of_int 0) with (Return 0%Q). simpl.
    rewrite age_not_fresh by lra. reflexivity.
Qed.

Section MoreExamples.
#[local] Existing Instance example_lib.

Lemma nc_keeps_upcoming_in_order_witness :
  exists evs,
    get_data_nc
      (fun k => match k with
                | O => (4000, NcError TimeoutException)
                | S _ => (5000, NcJson (Some "OK") (Some 0) (Some sample_calendar))
                end)
      false []
    = (true, omap (nc_upcoming 5000) sample_calendar, evs)
    /\ requests_of evs = [0; 1]%nat
    /\ length (omap (nc_upcoming 5000) sample_calendar)
       = length (List.filter (nc_is_upcoming 5000) sample_calendar).
Proof.
  apply (nc_keeps_upcoming_in_order
           (fun k => match k with
                     | O => (4000, NcError TimeoutException)
                     | S _ => (5000, NcJson (Some "OK") (Some 0)
                                       (Some sample_calendar))
                     end)
           false [] 1 5000 (Some sample_calendar)).
  - reflexivity.
  - lia.
  - intros [|j] Hj; [reflexivity | lia].
  - reflexivity.
  - lia.
  - simpl. unfold sample_calendar.
    repeat first [apply Forall_nil_2 | apply Forall_cons_2];
      intros t Ht Hge; simpl in Ht; try discriminate;
      injection Ht as <-; try lia; vm_compute; eauto.
Defined.

Lemma atc_link_without_href_fails_attempt_witness :
  atc_attempt (fun _ => AtcCells no_href_cells) 0 [] = Fell_through [].
Proof.
  apply (atc_link_without_href_fails_attempt
           (fun _ => AtcCells no_href_cells) 0 [] no_href_cells 0
           {| anchor := Some ("abc1", None); time_tag := None |} "abc1").
  - reflexivity.
  - simpl. lia.
  - left. reflexivity.
  - reflexivity.
  - reflexivity.
Defined.

Lemma cf_query_without_upcoming_witness :
  get_data_cf (fun _ => CfJson (Some "OK") (Some (drop 2 sample_feed))) false []
  = (true, [], [Request 0; SaveCache])
  /\ get_cf_info (fun _ => CfJson (Some "OK") (Some (drop 2 sample_feed))) []
     = (fetch_error_message, [], [Request 0; SaveCache]).
Proof.
  apply (cf_query_without_upcoming
           (fun _ => CfJson (Some "OK") (Some (drop 2 sample_feed)))
           (drop 2 sample_feed)).
  - reflexivity.
  - intros c Hc. simpl in Hc. inversion Hc; subst.
    exists "CODING". split; [reflexivity | discriminate].
Defined.

Lemma load_cache_without_numeric_timestamp_witness :
  _load_cache 5000 (Content (JObj {[ "timestamp" := JStr "yesterday" ]}))
  = Return Keeps.
Proof.
  apply (load_cache_without_numeric_timestamp 5000
           {[ "timestamp" := JStr "yesterday" ]}).
  - intros n Hn. vm_compute in Hn. discriminate.
  - intros x Hx. vm_compute in Hx. discriminate.
  - unfold Qle. simpl. lia.
Defined.


End MoreExamples.

(** *** Runs of the fetchers on concrete replies *)

Section Examples.
#[local] Existing Instance example_lib.

Lemma failed_fetch_leaves_list_empty_witness :
  (get_data_cf (fun _ => CfError TimeoutException) true [sample_contest]).1
  = (false, [])
  /\ (get_data_nc (fun _ => (0, NcError TimeoutException)) false []).1
     = (false, [])
  /\ (get_data_atc (fun _ => AtcNoTable) true [sample_contest]).1
     = (false, []).
Proof.
  destruct failed_fetch_leaves_list_empty as (Hcf & Hnc & Hatc).
  repeat split_and.
  - destruct (Hcf (fun _ => CfError TimeoutException) true [sample_contest]
                [] [Request 0; Sleep 1; Request 1; Sleep 2; Request 2]
                eq_refl eq_refl) as (_ & _ & _).
    reflexivity.
  - destruct (Hnc (fun _ => (0, NcError TimeoutException)) false []
                [] [Request 0; Sleep 1; Request 1; Sleep 2; Request 2]
                eq_refl eq_refl) as (_ & _ & _).
    reflexivity.
  - destruct (Hatc (fun _ => AtcNoTable) true [sample_contest]
                [] [Request 0; Request 1; Request 2] eq_refl) as (_ & _ & _).
    reflexivity.
Defined.

(** A forced refresh that fails on three time-outs wipes the list that was
    held before it. *)
Lemma failed_forced_fetch_wipes_list :
  get_data_cf (fun _ => CfError TimeoutException) true [sample_contest]
  = (false, [], [Request 0; Sleep 1; Request 1; Sleep 2; Request 2])
  /\ [] <> [sample_contest].
Proof. split; [reflexivity | discriminate]. Qed.

(** A contest object without its [name] key, behind a well-formed one: the
    attempt raises [KeyError] with one record already appended, and the
    failed fetch leaves that record in the list. *)
Lemma key_error_leaves_partial_list :
  get_data_cf (fun _ => CfJson (Some "OK") (Some broken_feed)) false []
  = (false, [cf_record "Round A" "100" 1],
     [Request 0; Sleep 1; Request 1; Sleep 2; Request 2]).
Proof. reflexivity. Qed.

(** The first query of a process whose cache was missing: Codeforces answers
    with an empty feed (a success), the two other sources time out, and the
    query still reports "no data". *)
Lemma no_data_after_successful_fetch :
  get_data_cf (cf_replies empty_feed_network) false (cf empty_manager)
  = (true, [], [Request 0; SaveCache])
  /\ (get_today_info empty_feed_network 0 empty_manager).1 = no_data_message.
Proof. split; reflexivity. Qed.

(** A start time that [time.localtime] refuses: the attempt raises in the
    record loop, the exception is caught by the last handler, and the fetch
    fails after three requests. *)
Lemma start_time_out_of_range_fails_fetch :
  get_data_cf
    (fun _ => CfJson (Some "OK")
                (Some [ {| phase := Some "BEFORE"; name := Some "Far";
                           startTimeSeconds := Some (10 ^ 20);
                           id := Some 7 |} ]))
    false []
  = (false, [], [Request 0; Sleep 1; Request 1; Sleep 2; Request 2]).
Proof. reflexivity. Qed.

(** An AtCoder page whose table of upcoming contests has no cell: the
    requirement of ten cells fails, and so does the fetch after three
    requests. *)
Lemma atc_empty_table_fails_fetch :
  atc_step_failed (AtcCells [])
  /\ get_data_atc (fun _ => AtcCells []) false []
     = (false, [], [Request 0; Request 1; Request 2]).
Proof. split; [left; simpl; lia | reflexivity]. Qed.

Lemma zero_record_attempt_succeeds_witness :
  (get_data_cf (fun k => match k with
                         | O => CfJson (Some "OK") (Some broken_feed)
                         | S _ => CfJson (Some "OK") (Some (drop 2 sample_feed))
                         end) false []).1
  = (true, [])
  /\ (get_data_nc (fun _ => (5000, NcJson (Some "OK") (Some 0)
                                     (Some (take 2 sample_calendar))))
        true [sample_contest]).1
     = (true, [])
  /\ atc_attempt (fun _ => AtcCells (take 5 sample_cells)) 0 [sample_contest]
     = Continued [].
Proof.
  destruct zero_record_attempt_succeeds as (Hcf & Hnc & Hatc).
  repeat split_and.
  - destruct (Hcf (fun k => match k with
                            | O => CfJson (Some "OK") (Some broken_feed)
                            | S _ => CfJson (Some "OK")
                                       (Some (drop 2 sample_feed))
                            end) false [] 1%nat (drop 2 sample_feed))
      as (evs & -> & _); try reflexivity.
    + lia.
    + intros [|j] Hj; [reflexivity | lia].
  - destruct (Hnc (fun _ => (5000, NcJson (Some "OK") (Some 0)
                                     (Some (take 2 sample_calendar))))
                true [sample_contest] 0%nat 5000
                (Some (take 2 sample_calendar)))
      as (evs & -> & _); try reflexivity.
    + lia.
    + intros j Hj. lia.
  - pose proof (Hatc (fun _ => AtcCells (take 5 sample_cells)) 0%nat
                  [sample_contest]) as Hmatch.
    destruct (atc_attempt (fun _ => AtcCells (take 5 sample_cells)) 0
                [sample_contest]) as [l | l | l] eqn:Hrun.
    + discriminate Hrun.
    + destruct Hmatch as [-> _]. reflexivity.
    + discriminate Hrun.
Defined.

Lemma cf_keeps_reversed_upcoming_prefix_witness :
  (get_data_cf (fun k => match k with
                         | O => CfJson (Some "OK") (Some broken_feed)
                         | S _ => CfJson (Some "OK") (Some sample_feed)
                         end) false []).1
  = (true, [cf_record "Round B" "200" 2; cf_record "Round A" "100" 1]).
Proof.
  destruct (cf_keeps_reversed_upcoming_prefix
              (fun k => match k with
                        | O => CfJson (Some "OK") (Some broken_feed)
                        | S _ => CfJson (Some "OK") (Some sample_feed)
                        end) false [] 1%nat sample_feed)
    as (evs & -> & _).
  - reflexivity.
  - lia.
  - intros [|j] Hj; [reflexivity | lia].
  - reflexivity.
  - unfold sample_feed, complete.
    repeat first [apply Forall_nil_2 | apply Forall_cons_2];
      repeat split; simpl; eauto.
  - simpl. repeat first [apply Forall_nil_2 | apply Forall_cons_2];
      intros t Ht; simpl in Ht; injection Ht as <-; vm_compute; eauto.
  - reflexivity.
Defined.

Lemma atc_holds_at_most_two_witness :
  (length (get_data_atc (fun _ => AtcCells sample_cells) true
             [sample_contest; sample_contest; sample_contest]).1.2 <= 2)%nat.
Proof.
  apply (atc_holds_at_most_two (fun _ => AtcCells sample_cells) true
           [sample_contest; sample_contest; sample_contest]
           _ [Request 0; SaveCache]).
  - reflexivity.
  - left. reflexivity.
Defined.

End Examples.

End DataSourceProps.

(** ** main.py *)

Module MainProps.
Import Config Main.

(** On datetimes whose fields are in range, comparing field by field is
    comparing the instants. *)
Lemma lex_compare_microseconds (a b : datetime) :
  valid_datetime a -> valid_datetime b ->
  lex_compare (fields a) (fields b)
  = (to_microseconds a ?= to_microseconds b).
Proof.
  unfold valid_datetime, fields, to_microseconds, lex_compare.
  intros (Hah & Ham & Has & Hau) (Hbh & Hbm & Hbs & Hbu).
  repeat match goal with
  | |- context [match ?x ?= ?y with _ => _ end] =>
      destruct (Z.compare_spec x y)
  end;
  symmetry;
  first [ apply Z.compare_eq_iff; lia
        | apply Z.compare_lt_iff; lia
        | apply Z.compare_gt_iff; lia ].
Qed.

Lemma datetime_le_microseconds (a b : datetime) :
  valid_datetime a -> valid_datetime b ->
  datetime_le a b = true <-> to_microseconds a <= to_microseconds b.
Proof.
  intros Ha Hb. unfold datetime_le.
  rewrite (lex_compare_microseconds a b Ha Hb).
  destruct (Z.compare_spec (to_microseconds a) (to_microseconds b));
    split; intros; try reflexivity; try lia; discriminate.
Qed.

Lemma datetime_lt_microseconds (a b : datetime) :
  valid_datetime a -> valid_datetime b ->
  datetime_lt a b = true <-> to_microseconds a < to_microseconds b.
Proof.
  intros Ha Hb. unfold datetime_lt.
  rewrite (lex_compare_microseconds a b Ha Hb).
  destruct (Z.compare_spec (to_microseconds a) (to_microseconds b));
    split; intros; try reflexivity; try lia; discriminate.
Qed.

Lemma replace_time_valid (now : datetime) (h m : Z) :
  0 <= h <= 23 -> 0 <= m <= 59 ->
  replace_time now h m
  = Return {| ordinal := ordinal now; hour := h; minute := m;
              second := 0; microsecond := 0 |}.
Proof.
  intros Hh Hm. unfold replace_time.
  replace (0 <=? h) with true by (symmetry; apply Z.leb_le; lia).
  replace (h <=? 23) with true by (symmetry; apply Z.leb_le; lia).
  replace (0 <=? m) with true by (symmetry; apply Z.leb_le; lia).
  replace (m <=? 59) with true by (symmetry; apply Z.leb_le; lia).
  reflexivity.
Qed.

Section Schedule.
Context `{PyLib}.

(** C9: with a fire time in range, the target computed by the loop is
    strictly later than the current time and at most 24 hours away; it is at
    the configured hour and minute; with fire time 08:30 and current time
    08:31 it falls on the following day. *)
Theorem next_fire_within_a_day
    (now : datetime) (config : Config) (hs ms : string) (h m : Z) :
  valid_datetime now ->
  matchreminder_time config !! "hour" = Some hs -> py_int hs = Some h ->
  matchreminder_time config !! "minute" = Some ms -> py_int ms = Some m ->
  0 <= h <= 23 -> 0 <= m <= 59 ->
  exists target wait,
    reminder_loop_step now config = Wait_until target wait
    /\ datetime_lt now target = true
    /\ wait = timedelta_us target now
    /\ 0 < wait <= day_us
    /\ hour target = h /\ minute target = m
    /\ second target = 0 /\ microsecond target = 0
    /\ (h = 8 -> m = 30 -> hour now = 8 -> minute now = 31 ->
        ordinal target = ordinal now + 1).
Proof.
  intros Hnow Hhs Hh Hms Hm Hhr Hmr.
  unfold reminder_loop_step, time_field, subscript.
  rewrite Hhs, Hms. simpl. rewrite Hh, Hm. simpl.
  rewrite (replace_time_valid now h m Hhr Hmr).
  set (today := {| ordinal := ordinal now; hour := h; minute := m;
                   second := 0; microsecond := 0 |}).
  assert (Htoday : valid_datetime today) by (unfold valid_datetime; simpl; lia).
  assert (Htomorrow : valid_datetime (add_one_day today))
    by (unfold valid_datetime; simpl; lia).
  pose proof (datetime_le_microseconds today now Htoday Hnow) as Hle.
  destruct Hnow as (Hnh & Hnm & Hns & Hnu).
  destruct (datetime_le today now) eqn:Hcmp.
  - exists (add_one_day today), (timedelta_us (add_one_day today) now).
    assert (Hpast : to_microseconds today <= to_microseconds now)
      by (apply Hle; reflexivity).
    split; [reflexivity|].
    split.
    { apply datetime_lt_microseconds; [unfold valid_datetime; lia | assumption |].
      unfold to_microseconds in *. simpl in *. lia. }
    split; [reflexivity|].
    split.
    { unfold timedelta_us, day_us, to_microseconds in *. simpl in *. lia. }
    simpl. repeat split; lia.
  - exists today, (timedelta_us today now).
    assert (Hfuture : ~ to_microseconds today <= to_microseconds now).
    { intros Hc. apply Hle in Hc. discriminate. }
    split; [reflexivity|].
    split.
    { apply datetime_lt_microseconds; [unfold valid_datetime; lia | assumption |].
      lia. }
    split; [reflexivity|].
    split.
    { unfold timedelta_us, day_us, to_microseconds in *. simpl in *. lia. }
    simpl. repeat split; try lia.
    intros -> -> Hh8 Hm31. exfalso. apply Hfuture.
    unfold to_microseconds. simpl. lia.
Qed.

End Schedule.

Lemma next_fire_within_a_day_witness :
  exists wait,
    @reminder_loop_step DataSource.example_lib sample_now default_config
    = Wait_until {| ordinal := 739923; hour := 8; minute := 30;
                    second := 0; microsecond := 0 |} wait
    /\ 0 < wait <= day_us.
Proof.
  destruct (@next_fire_within_a_day DataSource.example_lib
              sample_now default_config "8" "30" 8 30)
    as (target & wait & Hrun & _ & _ & Hwait & _);
    try reflexivity; try (unfold valid_datetime; simpl; lia).
  exists wait. split; [|exact Hwait].
  rewrite Hrun. f_equal.
  revert Hrun. vm_compute. intros Hrun. inversion Hrun. reflexivity.
Defined.

(** *** More on the target time *)

Section ScheduleMore.
Context `{PyLib}.

Lemma reminder_loop_step_valid
    (now : datetime) (config : Config) (hs ms : string) (h m : Z) :
  matchreminder_time config !! "hour" = Some hs -> py_int hs = Some h ->
  matchreminder_time config !! "minute" = Some ms -> py_int ms = Some m ->
  0 <= h <= 23 -> 0 <= m <= 59 ->
  reminder_loop_step now config
  = (let today := fire_time_today now h m in
     let target := if datetime_le today now then add_one_day today else today in
     Wait_until target (timedelta_us target now)).
Proof.
  intros Hhs Hh Hms Hm Hhr Hmr.
  unfold reminder_loop_step, time_field, subscript.
  rewrite Hhs, Hms. simpl. rewrite Hh, Hm. simpl.
  rewrite (replace_time_valid now h m Hhr Hmr). reflexivity.
Qed.

(** The loop fires at the first occurrence of the configured time after
    now: today if that time is still to come, tomorrow otherwise, never a
    later day. *)
Theorem reminder_fires_at_next_occurrence
    (now : datetime) (config : Config) (hs ms : string) (h m : Z) :
  valid_datetime now ->
  matchreminder_time config !! "hour" = Some hs -> py_int hs = Some h ->
  matchreminder_time config !! "minute" = Some ms -> py_int ms = Some m ->
  0 <= h <= 23 -> 0 <= m <= 59 ->
  exists day wait,
    reminder_loop_step now config = Wait_until (fire_time_on day h m) wait
    /\ (day = ordinal now \/ day = ordinal now + 1)
    /\ to_microseconds now < to_microseconds (fire_time_on day h m)
    /\ (forall day',
          to_microseconds now < to_microseconds (fire_time_on day' h m) ->
          day <= day').
Proof.
  intros Hnow Hhs Hh Hms Hm Hhr Hmr.
  rewrite (reminder_loop_step_valid now config hs ms h m) by assumption.
  cbv zeta.
  assert (Htoday : valid_datetime (fire_time_today now h m))
    by (unfold valid_datetime; simpl; lia).
  pose proof (datetime_le_microseconds _ _ Htoday Hnow) as Hle.
  destruct Hnow as (Hnh & Hnm & Hns & Hnu).
  destruct (datetime_le (fire_time_today now h m) now) eqn:Hcmp.
  - assert (Hpast : to_microseconds (fire_time_today now h m)
                    <= to_microseconds now) by (apply Hle; reflexivity).
    exists (ordinal now + 1), (timedelta_us (fire_time_on (ordinal now + 1) h m) now).
    split; [reflexivity|]. split; [right; reflexivity|].
    unfold to_microseconds, fire_time_on, fire_time_today in *. simpl in *.
    split; [lia|]. intros day' Hday'. lia.
  - assert (Hfuture : ~ to_microseconds (fire_time_today now h m)
                        <= to_microseconds now).
    { intros Hc. apply Hle in Hc. discriminate. }
    exists (ordinal now), (timedelta_us (fire_time_on (ordinal now) h m) now).
    split; [reflexivity|]. split; [left; reflexivity|].
    unfold to_microseconds, fire_time_on, fire_time_today in *. simpl in *.
    split; [lia|]. intros day' Hday'. lia.
Qed.

Lemma time_field_inv (config : Config) (key : string) (n : Z) :
  time_field config key = Return n ->
  exists s, matchreminder_time config !! key = Some s /\ py_int s = Some n.
Proof.
  unfold time_field, subscript.
  destruct (matchreminder_time config !! key) as [s|]; simpl; [|discriminate].
  destruct (py_int s) as [k|] eqn:Hs; [|discriminate].
  intros Hr. inversion Hr; subst. exists s. auto.
Qed.

(** A wait is computed only from a time that is there, reads as integers
    and is in range: no other configuration gets as far as the dispatch. *)
Theorem wait_only_for_valid_time
    (now : datetime) (config : Config) (target : datetime) (wait : Z) :
  reminder_loop_step now config = Wait_until target wait ->
  exists hs ms h m,
    matchreminder_time config !! "hour" = Some hs /\ py_int hs = Some h
    /\ matchreminder_time config !! "minute" = Some ms /\ py_int ms = Some m
    /\ 0 <= h <= 23 /\ 0 <= m <= 59
    /\ hour target = h /\ minute target = m
    /\ second target = 0 /\ microsecond target = 0
    /\ wait = timedelta_us target now.
Proof.
  unfold reminder_loop_step.
  destruct (time_field config "hour") as [e | h] eqn:Hh; simpl; [discriminate|].
  destruct (time_field config "minute") as [e | m] eqn:Hm; simpl; [discriminate|].
  apply time_field_inv in Hh, Hm.
  destruct Hh as (hs & Hhs & Hh). destruct Hm as (ms & Hms & Hm).
  unfold replace_time.
  destruct ((0 <=? h) && (h <=? 23) && (0 <=? m) && (m <=? 59)) eqn:Hr;
    [|discriminate].
  rewrite !Bool.andb_true_iff, !Z.leb_le in Hr.
  intros Hstep. inversion Hstep; subst. clear Hstep.
  exists hs, ms, h, m.
  destruct (datetime_le _ now); simpl; repeat split_and; auto; lia.
Qed.

(** A time that [set_reminder_time] accepts is one the loop can use: the
    next pass computes a wait for that hour and minute. *)
Theorem accepted_time_is_scheduled
    (writable : bool) (hour_text minute_text : string) (h mi : Z)
    (mgr : ConfigManager) (now : datetime) :
  py_int hour_text = Some h -> py_int minute_text = Some mi ->
  0 <= h <= 23 -> 0 <= mi <= 59 ->
  exists target wait,
    reminder_loop_step now
      (config (set_reminder_time writable hour_text minute_text mgr).2)
    = Wait_until target wait
    /\ hour target = h /\ minute target = mi.
Proof.
  intros Hh Hmi Hhr Hmr.
  assert (Htime : matchreminder_time
                    (config (set_reminder_time writable hour_text minute_text mgr).2)
                  = {[ "hour" := hour_text; "minute" := minute_text ]}).
  { unfold set_reminder_time. rewrite Hh, Hmi.
    replace (time_in_range h mi) with true
      by (symmetry; unfold time_in_range;
          rewrite !Bool.andb_true_iff, !Z.leb_le; lia).
    unfold save_config. destruct writable; reflexivity. }
  rewrite (reminder_loop_step_valid now _ hour_text minute_text h mi);
    try assumption; try (rewrite Htime; reflexivity).
  cbv zeta. eexists _, _. split; [reflexivity|].
  destruct (datetime_le _ now); simpl; auto.
Qed.

End ScheduleMore.

Lemma reminder_fires_at_next_occurrence_witness :
  exists wait,
    @reminder_loop_step DataSource.example_lib sample_now default_config
    = Wait_until (fire_time_on 739923 8 30) wait.
Proof.
  destruct (@reminder_fires_at_next_occurrence DataSource.example_lib
              sample_now default_config "8" "30" 8 30)
    as (day & wait & Hrun & Hday & Hafter & _);
    try reflexivity; try (unfold valid_datetime; simpl; lia).
  exists wait. rewrite Hrun. do 2 f_equal.
  destruct Hday as [-> | ->]; [|reflexivity].
  exfalso. revert Hafter. vm_compute. discriminate.
Defined.

Lemma wait_only_for_valid_time_witness :
  exists hs ms,
    matchreminder_time default_config !! "hour" = Some hs
    /\ matchreminder_time default_config !! "minute" = Some ms.
Proof.
  destruct (@wait_only_for_valid_time DataSource.example_lib
              sample_now default_config
              (fire_time_on 739923 8 30)
              (timedelta_us (fire_time_on 739923 8 30) sample_now) eq_refl)
    as (hs & ms & h & m & Hhs & _ & Hms & _).
  exists hs, ms. split; assumption.
Defined.

Lemma accepted_time_is_scheduled_witness :
  exists target wait,
    @reminder_loop_step DataSource.example_lib sample_now
      (config (@set_reminder_time DataSource.example_lib true "8" "30"
                 sample_manager).2)
    = Wait_until target wait
    /\ hour target = 8 /\ minute target = 30.
Proof.
  apply (@accepted_time_is_scheduled DataSource.example_lib true "8" "30" 8 30
           sample_manager sample_now); try reflexivity; lia.
Defined.

(** *** The reminder task *)

(** The toggle command flips the flag and leaves no task when the flag is
    off; when the flag is on, a task is active if one was or if creating it
    worked. The reply follows the flag alone: it says "on" even when no task
    could be created. *)
Theorem toggle_command_outcome
    (writable spawn_ok : bool) (m : ConfigManager) (t : task_state) :
  let r := toggle_command writable spawn_ok m t in
  enabled r.1.1 = negb (enabled m)
  /\ r.2 = (if enabled r.1.1 then "✅ 自动提醒已开启" else "❌ 自动提醒已关闭")
  /\ task_active r.1.2 = enabled r.1.1 && (task_active t || spawn_ok)
  /\ (enabled r.1.1 = false -> r.1.2 = No_task).
Proof.
  destruct m as [[tm l e] f].
  destruct e, writable, spawn_ok, t; cbn; repeat split; auto; discriminate.
Qed.

(** After a restart a task is active exactly when the reminder is enabled
    and the task could be created; [False] is returned only when it is
    enabled and could not. The task that was there is always dropped. *)
Theorem restart_reminder_task_outcome
    (spawn_ok : bool) (config : Config) (t : task_state) :
  let r := restart_reminder_task spawn_ok config t in
  task_active r.2 = enable_auto_reminder config && spawn_ok
  /\ r.1 = negb (enable_auto_reminder config) || spawn_ok
  /\ (r.2 = Running \/ r.2 = No_task).
Proof.
  destruct config as [tm l e].
  destruct e, spawn_ok, t; cbn; repeat split; auto.
Qed.

(** Starting twice is starting once: after a start that returned [True], a
    second start returns [True] and changes nothing, whether or not a task
    could be created then. *)
Theorem start_reminder_task_idempotent
    (s1 s2 : bool) (t : task_state) :
  (start_reminder_task s1 t).1 = true ->
  start_reminder_task s2 (start_reminder_task s1 t).2
  = (true, (start_reminder_task s1 t).2)
  /\ (start_reminder_task s1 t).2 = Running.
Proof.
  destruct s1, s2, t; cbn; intros Hok; try discriminate; auto.
Qed.

Lemma start_reminder_task_idempotent_witness :
  start_reminder_task false (start_reminder_task true No_task).2
  = (true, Running).
Proof.
  apply (start_reminder_task_idempotent true false No_task). reflexivity.
Defined.

End MainProps.
